(** * lopy-lorawan-test: a shallow embedding of [main.py]

    The script joins a LoRaWAN network (OTAA or ABP), then sends an
    incrementing one-byte payload every 30 seconds and reports what the
    radio stack tells it on the console and on the RGB LED.

    Everything the script does to the outside world is a call into the
    vendor firmware ([pycom], [network.LoRa], [socket], [utime], [uos]).
    Those calls are recorded, in program order, as a trace of [effect]s;
    what the firmware answers (and what it cannot be seen to compute, such
    as [utime.ticks_diff]) is read from a [World].  The two module globals
    the script mutates ([counter], [RX_EVENT]) are threaded through a small
    state-and-exception monad; a loop takes fuel, and running out of it is
    an outcome of its own. *)

From Stdlib Require Import ZArith NArith List String Ascii Bool Lia.
From Stdlib Require Import QArith DecimalString.
From Stdlib.Strings Require Import Byte.
Import ListNotations.

Local Open Scope string_scope.
Local Open Scope Z_scope.

(** ** Python values the script handles *)

(** [bytes] objects. *)
Definition bytes := list byte.

(** The exceptions that can travel through the script. *)
Inductive exn : Type :=
| ValueError        (* bytes([n]) out of range, malformed hex *)
| NameError         (* a name read before it was ever bound *)
| SocketTimeout.    (* socket.timeout *)

(** Truth value of a Python int. *)
Definition truthy (z : Z) : bool := negb (z =? 0).

(** [str(n)] / [{}] of an int. *)
Definition str_int (z : Z) : string := NilZero.string_of_int (Z.to_int z).

Definition nl : string := String (ascii_of_nat 10) EmptyString.

(** [bytes([n])]: one byte, [ValueError] outside [range(256)]. *)
Definition bytes_of_int (n : Z) : option bytes :=
  if n <? 0 then None
  else match Byte.of_N (Z.to_N n) with
       | Some b => Some [b]
       | None => None
       end.

Definition byte_val (b : byte) : Z := Z.of_N (Byte.to_N b).

(** *** [ubinascii] and [struct] *)

Definition hex_digit (n : Z) : ascii :=
  ascii_of_N (Z.to_N (if n <? 10 then 48 + n else 87 + n)).

(** [ubinascii.hexlify(b)], lower-case as the firmware produces it. *)
Fixpoint hexlify (b : bytes) : string :=
  match b with
  | [] => EmptyString
  | x :: r =>
      String (hex_digit (byte_val x / 16))
        (String (hex_digit (byte_val x mod 16)) (hexlify r))
  end.

Definition upper_char (c : ascii) : ascii :=
  let n := Z.of_N (N_of_ascii c) in
  if (97 <=? n) && (n <=? 122) then ascii_of_N (Z.to_N (n - 32)) else c.

(** [s.upper()] *)
Fixpoint upper (s : string) : string :=
  match s with
  | EmptyString => EmptyString
  | String c r => String (upper_char c) (upper r)
  end.

Definition hex_val (c : ascii) : option Z :=
  let n := Z.of_N (N_of_ascii c) in
  if (48 <=? n) && (n <=? 57) then Some (n - 48)
  else if (65 <=? n) && (n <=? 70) then Some (n - 55)
  else if (97 <=? n) && (n <=? 102) then Some (n - 87)
  else None.

(** [ubinascii.unhexlify(s)]: [None] stands for the [ValueError] raised on
    an odd number of digits or on a character that is no hex digit. *)
Fixpoint unhexlify (s : string) : option bytes :=
  match s with
  | EmptyString => Some []
  | String _ EmptyString => None
  | String h (String l r) =>
      match hex_val h, hex_val l, unhexlify r with
      | Some a, Some b, Some t =>
          match Byte.of_N (Z.to_N (16 * a + b)) with
          | Some x => Some (x :: t)
          | None => None
          end
      | _, _, _ => None
      end
  end.

(** [struct.unpack(">l", b)[0]]: a signed big-endian 32-bit integer. *)
Definition unpack_be_long (b : bytes) : option Z :=
  match b with
  | [b3; b2; b1; b0] =>
      let u := ((byte_val b3 * 256 + byte_val b2) * 256 + byte_val b1) * 256
               + byte_val b0 in
      Some (if u <? 2 ^ 31 then u else u - 2 ^ 32)
  | _ => None
  end.

(** [repr] of a [bytes] object, as [{}] prints it. *)
Definition repr_byte (quote : ascii) (b : byte) : string :=
  let c := ascii_of_byte b in
  let n := byte_val b in
  if Ascii.eqb c quote then String "\"%char (String quote EmptyString)
  else if n =? 92 then "\\"
  else if (32 <=? n) && (n <=? 126) then String c EmptyString
  else if n =? 10 then "\n"
  else if n =? 13 then "\r"
  else if n =? 9 then "\t"
  else String "\"%char (String "x"%char
         (String (hex_digit (n / 16)) (String (hex_digit (n mod 16)) EmptyString))).

Definition has_byte (n : Z) (b : bytes) : bool :=
  existsb (fun x => byte_val x =? n) b.

Definition repr_bytes (b : bytes) : string :=
  let quote : ascii :=
    if has_byte 39 b && negb (has_byte 34 b) then ascii_of_nat 34
    else ascii_of_nat 39 in
  String "b" (String quote
    (fold_right (fun x acc => repr_byte quote x ++ acc)
       (String quote EmptyString) b)).

(** ** Constants of the script *)

Definition LED_OFF : Z := 0x000000.
Definition LED_BLUE : Z := 0x0000ff.
Definition LED_GREEN : Z := 0x00ff00.
Definition LED_RED : Z := 0xff0000.
Definition LED_YELLOW : Z := 0x7f7f00.
Definition LED_PINK : Z := 0xFF0088.

(** The settings at the top of the script. *)
Record Config : Type := {
  LORA_DR : Z;
  LORA_DR_JOIN : Z;
  LORA_ACK : bool;
  LORA_OTAA : bool;
  OTAA_APP_EUI : string;
  OTAA_APP_KEY : string;
  OTAA_JOIN_TIMEOUT : Z;
  ABP_DEV_ADDR : string;
  ABP_NET_KEY : string;
  ABP_APP_KEY : string
}.

(** The values the repository ships. *)
Definition reference_config : Config := {|
  LORA_DR := 2;
  LORA_DR_JOIN := 2;
  LORA_ACK := true;
  LORA_OTAA := true;
  OTAA_APP_EUI := "70B3D57ED002FFFF";
  OTAA_APP_KEY := "F32ADC1EDD72A50C42CE8942B3FFFFFF";
  OTAA_JOIN_TIMEOUT := 30;
  ABP_DEV_ADDR := "26010000";
  ABP_NET_KEY := "07966421204E8FAB6C0835079EFFFFFF";
  ABP_APP_KEY := "A87CC988EB3BD948A7FBDF7423FFFFFF"
|}.

Definition with_ack (c : Config) (a : bool) : Config := {|
  LORA_DR := LORA_DR c;
  LORA_DR_JOIN := LORA_DR_JOIN c;
  LORA_ACK := a;
  LORA_OTAA := LORA_OTAA c;
  OTAA_APP_EUI := OTAA_APP_EUI c;
  OTAA_APP_KEY := OTAA_APP_KEY c;
  OTAA_JOIN_TIMEOUT := OTAA_JOIN_TIMEOUT c;
  ABP_DEV_ADDR := ABP_DEV_ADDR c;
  ABP_NET_KEY := ABP_NET_KEY c;
  ABP_APP_KEY := ABP_APP_KEY c
|}.

(** The event bits of the firmware's [network.LoRa] class.  The class is
    not part of the repository, so its constants are a parameter. *)
Record LoRaClass : Type := {
  RX_PACKET_EVENT : Z;
  TX_PACKET_EVENT : Z;
  TX_FAILED_EVENT : Z
}.

(** The values of the Pycom firmware. *)
Definition pycom_LoRa : LoRaClass := {|
  RX_PACKET_EVENT := 1;
  TX_PACKET_EVENT := 2;
  TX_FAILED_EVENT := 4
|}.

(** What three distinct single-bit flags satisfy: none is zero and no two
    overlap. *)
Definition distinct_bits (L : LoRaClass) : Prop :=
  TX_PACKET_EVENT L <> 0 /\ RX_PACKET_EVENT L <> 0 /\ TX_FAILED_EVENT L <> 0 /\
  Z.land (TX_PACKET_EVENT L) (RX_PACKET_EVENT L) = 0 /\
  Z.land (TX_PACKET_EVENT L) (TX_FAILED_EVENT L) = 0 /\
  Z.land (RX_PACKET_EVENT L) (TX_FAILED_EVENT L) = 0.

(** The tuple [lora.stats()] returns, one field per index. *)
Record Stats : Type := {
  rx_timestamp : Z;     (* stats[0] *)
  rssi : Z;             (* stats[1] *)
  snr : string;         (* stats[2]: a float on the board, used only
                           through its printed form *)
  sfrx : Z;             (* stats[3] *)
  sftx : Z;             (* stats[4] *)
  tx_trials : Z;        (* stats[5] *)
  tx_power : Z;         (* stats[6] *)
  tx_time_on_air : Z;   (* stats[7] *)
  tx_counter : Z;       (* stats[8] *)
  tx_frequency : Z      (* stats[9] *)
}.

(** The [lora] object as the callback sees it: the pending event bits and
    the statistics of the last transmission. *)
Record LoRaObj : Type := {
  pending_events : Z;
  last_stats : Stats
}.

(** ** Effects and the monad *)

Inductive send_result : Type := SendOk | SendTimedOut.

Inductive effect : Type :=
| Print (text : string) (end_ : string)
| Rgbled (color : Z)
| Sleep (seconds : Q)
| LoRaInit
| JoinOTAA (app_eui app_key : bytes) (timeout dr : Z)
| JoinABP (dev_addr : Z) (nwk_swkey app_swkey : bytes)
| AddChannel (index frequency dr_min dr_max : Z)
| HasJoined (answer : bool)
| TicksMs (t : Z)
| LoraEvents (events : Z)
| LoraStats
| SocketCreate
| SetsockoptDR (dr : Z)
| SetsockoptConfirmed (ack : bool)
| LoraCallback (trigger : Z)
| Setblocking (flag : bool)
| Settimeout (seconds : Z)
| Send (payload : bytes) (r : send_result)
| Recvfrom (bufsize : Z) (pkt : bytes) (port : Z)
| CallbackFailed (e : exn).

(** How a piece of the script ends. *)
Inductive outcome (A : Type) : Type :=
| Done (a : A)
| Raised (e : exn)
| OutOfFuel.
Arguments Done {A} a.
Arguments Raised {A} e.
Arguments OutOfFuel {A}.

(** The module globals the script assigns; [None] is "not bound yet". *)
Record Globals : Type := {
  counter : option Z;
  RX_EVENT : option bool
}.

Definition unbound : Globals := {| counter := None; RX_EVENT := None |}.

(** A computation reads and writes the globals, emits effects, and ends
    in an [outcome]. *)
Definition M (A : Type) : Type := Globals -> outcome A * Globals * list effect.

Definition ret {A} (a : A) : M A := fun g => (Done a, g, []).

Definition bind {A B} (m : M A) (k : A -> M B) : M B :=
  fun g =>
    match m g with
    | (Done a, g1, t1) =>
        match k a g1 with
        | (o, g2, t2) => (o, g2, (t1 ++ t2)%list)
        end
    | (Raised e, g1, t1) => (Raised e, g1, t1)
    | (OutOfFuel, g1, t1) => (OutOfFuel, g1, t1)
    end.

Declare Scope py_scope.
Delimit Scope py_scope with py.
Notation "x <- m ;; k" := (bind m (fun x => k))
  (at level 100, m at next level, right associativity) : py_scope.
Notation "m ;; k" := (bind m (fun _ => k))
  (at level 100, right associativity) : py_scope.
Local Open Scope py_scope.

Definition emit (e : effect) : M unit := fun g => (Done tt, g, [e]).
Definition raise {A} (e : exn) : M A := fun g => (Raised e, g, []).
Definition out_of_fuel {A} : M A := fun g => (OutOfFuel, g, []).

(** [try: body  except socket.timeout: handler] *)
Definition try_except_timeout (body handler : M unit) : M unit :=
  fun g =>
    match body g with
    | (Raised SocketTimeout, g1, t1) =>
        match handler g1 with
        | (o, g2, t2) => (o, g2, (t1 ++ t2)%list)
        end
    | r => r
    end.

(** Reading a name: [NameError] when it was never bound. *)
Definition load {A} (v : option A) : M A :=
  match v with
  | Some a => ret a
  | None => raise NameError
  end.

Definition get_counter : M Z := fun g => load (counter g) g.
Definition set_counter (c : Z) : M unit :=
  fun g => (Done tt, {| counter := Some c; RX_EVENT := RX_EVENT g |}, []).
Definition get_RX_EVENT : M bool := fun g => load (RX_EVENT g) g.
Definition set_RX_EVENT (b : bool) : M unit :=
  fun g => (Done tt, {| counter := counter g; RX_EVENT := Some b |}, []).

(** [print(text)], and [print(text, end=...)] with the empty string *)
Definition print (text : string) : M unit := emit (Print text nl).
Definition print_noeol (text : string) : M unit := emit (Print text EmptyString).

(** Accessors for the three parts of a run. *)
Definition result_of {A} (r : outcome A * Globals * list effect) : outcome A :=
  fst (fst r).
Definition globals_of {A} (r : outcome A * Globals * list effect) : Globals :=
  snd (fst r).
Definition trace_of {A} (r : outcome A * Globals * list effect) : list effect :=
  snd r.

(** ** [flash_led] *)

(** [for _ in range(0, repeat)]: the body [repeat] times. *)
Fixpoint flash_led (color : Z) (on pause : Q) (repeat : nat) : M unit :=
  match repeat with
  | O => ret tt
  | S n =>
      emit (Rgbled color);;
      emit (Sleep on);;
      emit (Rgbled LED_OFF);;
      emit (Sleep pause);;
      flash_led color on pause n
  end.

(** ** [event_handler] *)

Section Handler.

Variable cfg : Config.
Variable LoRa : LoRaClass.

(** [lora.events()] and [lora.stats()] *)
Definition lora_events (lora : LoRaObj) : M Z :=
  emit (LoraEvents (pending_events lora));; ret (pending_events lora).
Definition lora_stats (lora : LoRaObj) : M Stats :=
  emit LoraStats;; ret (last_stats lora).

(** The test on line 59:
    [events & TX_PACKET_EVENT and LORA_ACK or events & RX_PACKET_EVENT]. *)
Definition wants_rx (events : Z) : bool :=
  (truthy (Z.land events (TX_PACKET_EVENT LoRa)) && LORA_ACK cfg)
  || truthy (Z.land events (RX_PACKET_EVENT LoRa)).

(** The local [msg] is an [option string]: it is bound only by the first
    [if], and both [msg += ...] and [print(msg)] read it. *)
Definition event_handler (lora : LoRaObj) : M unit :=
  events <- lora_events lora;;
  if events =? 0 then ret tt
  else
    stats <- lora_stats lora;;
    let msg : option string :=
      if truthy (Z.land events (TX_PACKET_EVENT LoRa))
      then Some ("LoRa stats: TX[sf=" ++ str_int (12 - sftx stats)
                 ++ ", airtime=" ++ str_int (tx_time_on_air stats)
                 ++ "ms, count=" ++ str_int (tx_counter stats)
                 ++ ", retries=" ++ str_int (tx_trials stats) ++ "]")
      else None in
    msg <- (if wants_rx events
            then
              m <- load msg;;
              set_RX_EVENT true;;
              flash_led LED_PINK (1 # 10) (3 # 10) 2;;
              ret (Some (m ++ (" RX[sf=" ++ str_int (12 - sfrx stats)
                               ++ ", rssi=" ++ str_int (rssi stats)
                               ++ "dBm, snr=" ++ snr stats ++ "dB]")))
            else ret msg);;
    m <- load msg;;
    print m;;
    if truthy (Z.land events (TX_FAILED_EVENT LoRa))
    then print ("Warning: no ACK after " ++ str_int (tx_trials stats)
                ++ " attempts")
    else ret tt.

End Handler.

(** ** The world the script runs in *)

(** What the firmware does during one cycle of the main loop. *)
Record CycleEnv : Type := {
  ce_send : send_result;            (* how [s.send] ends *)
  ce_during_send : list LoRaObj;    (* callbacks landing before the receive *)
  ce_recv : bytes * Z;              (* what [s.recvfrom(64)] returns *)
  ce_during_idle : list LoRaObj     (* callbacks landing while the loop sleeps *)
}.

(** What the firmware answers over a whole run. *)
Record World : Type := {
  w_sysname : string;               (* uos.uname()[0] *)
  w_release : string;               (* uos.uname()[2] *)
  w_mac : bytes;                    (* lora.mac() *)
  w_ticks_diff : Z -> Z -> Z;       (* utime.ticks_diff *)
  w_float_seconds : Z -> Z;         (* int(d / 1000) once the float's rounding
                                       can show *)
  w_start_ticks : Z;                (* utime.ticks_ms() on line 87 *)
  w_poll_joined : nat -> bool;      (* lora.has_joined() at the i-th test of
                                       the join loop *)
  w_poll_ticks : nat -> Z;          (* utime.ticks_ms() in its i-th iteration *)
  w_joined_after_poll : bool;       (* lora.has_joined() on line 92 *)
  w_guard : nat -> bool;            (* lora.has_joined() at the k-th test of
                                       the main loop *)
  w_cycle : nat -> CycleEnv
}.

Section Script.

Variable cfg : Config.
Variable LoRa : LoRaClass.
Variable w : World.

Definition has_joined (answer : bool) : M bool :=
  emit (HasJoined answer);; ret answer.

Definition ticks_ms (t : Z) : M Z :=
  emit (TicksMs t);; ret t.

(** [ubinascii.unhexlify] inside the monad. *)
Definition unhexlify_m (s : string) : M bytes :=
  match unhexlify s with
  | Some b => ret b
  | None => raise ValueError
  end.

(** [int(utime.ticks_diff(now, start_join)/1000)].  The division is a
    float division and [int] truncates towards zero.  For a tick difference
    of less than 2^20 in absolute value (some 17 minutes) the difference is
    exact as a float and the rounding of the quotient is too small to cross
    an integer, so the result is the truncated integer quotient.  Beyond
    that the float's rounding can show, and the value is the board's. *)
Definition elapsed_seconds (now start_join : Z) : Z :=
  let d := w_ticks_diff w now start_join in
  if (- 2 ^ 20 <? d) && (d <? 2 ^ 20)
  then Z.quot d 1000
  else w_float_seconds w d.

(** The [while] on lines 88-91; [i] counts its tests.  It returns the last
    value of [otaa_timer]. *)
Fixpoint join_poll (fuel : nat) (i : nat) (start_join otaa_timer : Z) : M Z :=
  match fuel with
  | O => out_of_fuel
  | S fuel' =>
      joined <- has_joined (w_poll_joined w i);;
      if negb joined && (otaa_timer <? OTAA_JOIN_TIMEOUT cfg)
      then
        now <- ticks_ms (w_poll_ticks w i);;
        let otaa_timer := elapsed_seconds now start_join in
        print_noeol ".";;
        flash_led LED_BLUE (1 # 10) (9 # 10) 1;;
        join_poll fuel' (S i) start_join otaa_timer
      else ret otaa_timer
  end.

(** Lines 82-97. *)
Definition otaa_join (fuel : nat) : M Z :=
  app_eui <- unhexlify_m (OTAA_APP_EUI cfg);;
  app_key <- unhexlify_m (OTAA_APP_KEY cfg);;
  emit (JoinOTAA app_eui app_key 0 (LORA_DR_JOIN cfg));;
  print_noeol "Starting OTAA join...";;
  let otaa_timer := 0 in
  start_join <- ticks_ms (w_start_ticks w);;
  otaa_timer <- join_poll fuel 0 start_join otaa_timer;;
  joined <- has_joined (w_joined_after_poll w);;
  (if joined
   then print "OK.";; flash_led LED_BLUE 1 1 1
   else print "timeout, failed!";; flash_led LED_RED 1 1 1);;
  ret otaa_timer.

(** Lines 99-108.  [struct.unpack] reads the first four bytes and raises
    when there are fewer. *)
Definition abp_join : M unit :=
  print "ABP mode with preshared keys";;
  addr_bytes <- unhexlify_m (ABP_DEV_ADDR cfg);;
  dev_addr <- match addr_bytes with
              | b3 :: b2 :: b1 :: b0 :: _ =>
                  match unpack_be_long [b3; b2; b1; b0] with
                  | Some a => ret a
                  | None => raise ValueError
                  end
              | _ => raise ValueError
              end;;
  nwk_swkey <- unhexlify_m (ABP_NET_KEY cfg);;
  app_swkey <- unhexlify_m (ABP_APP_KEY cfg);;
  emit (JoinABP dev_addr nwk_swkey app_swkey);;
  emit (AddChannel 3 867100000 0 5);;
  emit (AddChannel 4 867300000 0 5);;
  emit (AddChannel 5 867500000 0 5);;
  emit (AddChannel 6 867700000 0 5);;
  emit (AddChannel 7 867900000 0 5).

(** The firmware calls the handler on its own; an exception of the handler
    is reported by the firmware and does not reach the main loop. *)
Definition run_callback (lora : LoRaObj) : M unit :=
  fun g =>
    match event_handler cfg LoRa lora g with
    | (Raised e, g1, t1) => (Done tt, g1, (t1 ++ [CallbackFailed e])%list)
    | r => r
    end.

Fixpoint run_callbacks (l : list LoRaObj) : M unit :=
  match l with
  | [] => ret tt
  | lora :: r => run_callback lora;; run_callbacks r
  end.

(** [bytes([counter])] *)
Definition bytes_m (n : Z) : M bytes :=
  match bytes_of_int n with
  | Some b => ret b
  | None => raise ValueError
  end.

(** [s.send(payload)], blocking: the radio events of the transmission are
    delivered while it blocks, then it returns or times out. *)
Definition s_send (ce : CycleEnv) (payload : bytes) : M unit :=
  emit (Send payload (ce_send ce));;
  run_callbacks (ce_during_send ce);;
  match ce_send ce with
  | SendOk => ret tt
  | SendTimedOut => raise SocketTimeout
  end.

(** [s.recvfrom(64)] *)
Definition s_recvfrom (ce : CycleEnv) (bufsize : Z) : M (bytes * Z) :=
  emit (Recvfrom bufsize (fst (ce_recv ce)) (snd (ce_recv ce)));;
  ret (ce_recv ce).

(** Lines 139-145: the receive attempt and the [if]/[elif]/[else]. *)
Definition await_and_classify (ce : CycleEnv) : M unit :=
  r <- s_recvfrom ce 64;;
  let rx_pkt := fst r in
  let rx_port := snd r in
  rx_event <- get_RX_EVENT;;
  if rx_event && (Nat.eqb (List.length rx_pkt) 0)
  then print "ACK received."
  else if Nat.ltb 0 (List.length rx_pkt)
  then print ("Received downlink packet on port " ++ str_int rx_port ++ ": "
              ++ repr_bytes rx_pkt)
  else print "No downlink packet received.".

(** Lines 147-149. *)
Definition idle (ce : CycleEnv) : M unit :=
  emit (Sleep 1);;
  run_callbacks (ce_during_idle ce);;
  print "Waiting 30 seconds...";;
  flash_led LED_YELLOW (2 # 10) (8 # 10) 29.

(** Lines 129-134, the body of the [try]. *)
Definition try_send (ce : CycleEnv) (c : Z) : M unit :=
  emit (Setblocking true);;
  emit (Settimeout 10);;
  flash_led LED_GREEN (1 # 10) (3 # 10) 2;;
  payload <- bytes_m c;;
  s_send ce payload;;
  print "OK.".

(** Lines 136-137, the [except socket.timeout] clause. *)
Definition on_timeout : M unit :=
  flash_led LED_RED 1 1 2;;
  print "Timeout!".

(** One pass through the body of the main loop, lines 125-149. *)
Definition cycle (ce : CycleEnv) : M unit :=
  c <- get_counter;;
  set_counter (c + 1);;
  set_RX_EVENT false;;
  c <- get_counter;;
  print_noeol ("Sending uplink packet " ++ str_int c ++ " with SF"
               ++ str_int (12 - LORA_DR cfg)
               ++ (if LORA_ACK cfg then " asking for ACK" else EmptyString)
               ++ "...");;
  try_except_timeout (try_send ce c) on_timeout;;
  emit (Setblocking false);;
  await_and_classify ce;;
  idle ce.

(** [while True and lora.has_joined(): ...]; [k] counts the tests. *)
Fixpoint main_loop (fuel : nat) (k : nat) : M unit :=
  match fuel with
  | O => out_of_fuel
  | S fuel' =>
      joined <- has_joined (w_guard w k);;
      if joined
      then cycle (w_cycle w k);; main_loop fuel' (S k)
      else ret tt
  end.

(** Lines 111-120. *)
Definition socket_setup : M unit :=
  emit SocketCreate;;
  emit (SetsockoptDR (LORA_DR cfg));;
  emit (SetsockoptConfirmed (LORA_ACK cfg));;
  emit (LoraCallback (Z.lor (RX_PACKET_EVENT LoRa) (TX_PACKET_EVENT LoRa))).

(** The whole script, top to bottom. *)
Definition script (fuel : nat) : M unit :=
  print (nl ++ "Init LoRaWAN stack on " ++ w_sysname w ++ " running "
         ++ w_release w ++ "...");;
  emit LoRaInit;;
  print ("LoRa DevEUI: " ++ upper (hexlify (w_mac w)));;
  (if LORA_OTAA cfg
   then otaa_join fuel;; ret tt
   else abp_join);;
  socket_setup;;
  set_counter 0;;
  main_loop fuel 0;;
  emit (Rgbled LED_RED).

End Script.

(** * Vocabulary of the properties *)

(** What [flash_led] puts on the LED: [repeat] times colour, hold, off,
    hold. *)
Fixpoint flash_trace (color : Z) (on pause : Q) (repeat : nat) : list effect :=
  match repeat with
  | O => []
  | S n =>
      Rgbled color :: Sleep on :: Rgbled LED_OFF :: Sleep pause
      :: flash_trace color on pause n
  end.

(** The payloads handed to [s.send], in order. *)
Fixpoint uplinks (t : list effect) : list bytes :=
  match t with
  | [] => []
  | Send payload _ :: r => payload :: uplinks r
  | _ :: r => uplinks r
  end.

(** Outcome of a cycle, in the words of the specification. *)
Inductive CycleOutcome : Type := Acked | DownlinkReceived | NoDownlink.

(** The line the main loop prints for each outcome. *)
Definition outcome_line (o : CycleOutcome) (rx_pkt : bytes) (rx_port : Z) : string :=
  match o with
  | Acked => "ACK received."
  | DownlinkReceived =>
      "Received downlink packet on port " ++ str_int rx_port ++ ": "
      ++ repr_bytes rx_pkt
  | NoDownlink => "No downlink packet received."
  end.

(** The two halves of the handler's statistics line, and its warning. *)
Definition tx_text (stats : Stats) : string :=
  "LoRa stats: TX[sf=" ++ str_int (12 - sftx stats)
  ++ ", airtime=" ++ str_int (tx_time_on_air stats)
  ++ "ms, count=" ++ str_int (tx_counter stats)
  ++ ", retries=" ++ str_int (tx_trials stats) ++ "]".

Definition rx_text (stats : Stats) : string :=
  " RX[sf=" ++ str_int (12 - sfrx stats)
  ++ ", rssi=" ++ str_int (rssi stats)
  ++ "dBm, snr=" ++ snr stats ++ "dB]".

Definition warning_text (stats : Stats) : string :=
  "Warning: no ACK after " ++ str_int (tx_trials stats) ++ " attempts".

(** The globals once the handler has assigned [RX_EVENT = True]. *)
Definition mark_rx (g : Globals) : Globals :=
  {| counter := counter g; RX_EVENT := Some true |}.

(** The code's three-way test, as a function of the flag and the packet. *)
Definition classify (rx_event : bool) (rx_pkt : bytes) : CycleOutcome :=
  if rx_event && Nat.eqb (List.length rx_pkt) 0 then Acked
  else if Nat.ltb 0 (List.length rx_pkt) then DownlinkReceived
  else NoDownlink.

(** A computation is [quiet] when it leaves the globals alone and sends
    nothing. *)
Definition quiet {A} (m : M A) : Prop :=
  forall g, globals_of (m g) = g /\ uplinks (trace_of (m g)) = [].

(** A run that has sent nothing and whose counter is where it started or
    at 0. *)
Definition calm {A} (c0 : option Z) (r : outcome A * Globals * list effect)
  : Prop :=
  uplinks (trace_of r) = []
  /\ (counter (globals_of r) = c0 \/ counter (globals_of r) = Some 0).

Section Observations.

Variable cfg : Config.
Variable LoRa : LoRaClass.
Variable w : World.

(** The line that opens a cycle. *)
Definition sending_text (c : Z) : string :=
  "Sending uplink packet " ++ str_int c ++ " with SF"
  ++ str_int (12 - LORA_DR cfg)
  ++ (if LORA_ACK cfg then " asking for ACK" else EmptyString) ++ "...".

(** The handler binds [msg] exactly when the transmit bit is set. *)
Definition tx_bit (events : Z) : bool :=
  truthy (Z.land events (TX_PACKET_EVENT LoRa)).
Definition rx_bit (events : Z) : bool :=
  truthy (Z.land events (RX_PACKET_EVENT LoRa)).
Definition failed_bit (events : Z) : bool :=
  truthy (Z.land events (TX_FAILED_EVENT LoRa)).

(** A callback sets [RX_EVENT] exactly when its transmit bit is set and
    line 59 holds. *)
Definition sets_flag (lora : LoRaObj) : bool :=
  tx_bit (pending_events lora)
  && (LORA_ACK cfg || rx_bit (pending_events lora)).

(** The globals after the callbacks [l] have run. *)
Definition after_callbacks (l : list LoRaObj) (g : Globals) : Globals :=
  if existsb sets_flag l then mark_rx g else g.

(** Lines 147-149, seen from outside. *)
Definition idle_trace (ce : CycleEnv) (g : Globals) : list effect :=
  (Sleep 1 :: trace_of (run_callbacks cfg LoRa (ce_during_idle ce) g)
   ++ Print "Waiting 30 seconds..." nl
   :: flash_trace LED_YELLOW (2 # 10) (8 # 10) 29)%list.

(** The effects of a send attempt up to the point where [s.send] returns
    or raises. *)
Definition send_trace (ce : CycleEnv) (payload : bytes) (g : Globals)
  : list effect :=
  ([Setblocking true; Settimeout 10]
   ++ flash_trace LED_GREEN (1 # 10) (3 # 10) 2
   ++ Send payload (ce_send ce)
   :: trace_of (run_callbacks cfg LoRa (ce_during_send ce) g))%list.

(** The globals right after lines 125-126 of a cycle entered with
    [counter = c]. *)
Definition entered (c : Z) : Globals :=
  {| counter := Some (c + 1); RX_EVENT := Some false |}.

(** The globals when the cycle classifies. *)
Definition at_classify (ce : CycleEnv) (c : Z) : Globals :=
  after_callbacks (ce_during_send ce) (entered c).

(** What the cycle prints and flashes once [s.send] has returned or
    raised. *)
Definition send_epilogue (r : send_result) : list effect :=
  match r with
  | SendOk => [Print "OK." nl]
  | SendTimedOut => (flash_trace LED_RED 1 1 2 ++ [Print "Timeout!" nl])%list
  end.

(** From the receive attempt to the end of the cycle. *)
Definition receive_trace (ce : CycleEnv) (c : Z) : list effect :=
  Setblocking false
  :: Recvfrom 64 (fst (ce_recv ce)) (snd (ce_recv ce))
  :: Print (outcome_line
              (classify (existsb sets_flag (ce_during_send ce))
                 (fst (ce_recv ce)))
              (fst (ce_recv ce)) (snd (ce_recv ce))) nl
  :: idle_trace ce (at_classify ce c).

(** One pass through the body of the join loop, seen from outside. *)
Definition poll_iteration (i : nat) : list effect :=
  HasJoined false :: TicksMs (w_poll_ticks w i) :: Print "." EmptyString
  :: flash_trace LED_BLUE (1 # 10) (9 # 10) 1.

(** [n] passes starting with the [i]-th. *)
Fixpoint poll_trace (i n : nat) : list effect :=
  match n with
  | O => []
  | S n' => (poll_iteration i ++ poll_trace (S i) n')%list
  end.

(** The wall-clock delta the [i]-th pass reads:
    [utime.ticks_diff(utime.ticks_ms(), start_join)], in milliseconds. *)
Definition ticks_delta (i : nat) : Z :=
  w_ticks_diff w (w_poll_ticks w i) (w_start_ticks w).

(** [otaa_timer] after the [i]-th pass. *)
Definition timer_after (i : nat) : Z :=
  elapsed_seconds w (w_poll_ticks w i) (w_start_ticks w).

(** Lines 76-78. *)
Definition preamble : list effect :=
  [Print (nl ++ "Init LoRaWAN stack on " ++ w_sysname w ++ " running "
          ++ w_release w ++ "...") nl;
   LoRaInit;
   Print ("LoRa DevEUI: " ++ upper (hexlify (w_mac w))) nl].

(** Lines 111-120. *)
Definition setup_trace : list effect :=
  [SocketCreate;
   SetsockoptDR (LORA_DR cfg);
   SetsockoptConfirmed (LORA_ACK cfg);
   LoraCallback (Z.lor (RX_PACKET_EVENT LoRa) (TX_PACKET_EVENT LoRa))].

(** The globals after line 123. *)
Definition at_loop_entry (g : Globals) : Globals :=
  {| counter := Some 0; RX_EVENT := RX_EVENT g |}.

End Observations.

(** ** Sample inputs *)

Definition sample_stats : Stats := {|
  rx_timestamp := 0; rssi := -57; snr := "6.0"; sfrx := 5; sftx := 2;
  tx_trials := 0; tx_power := 14; tx_time_on_air := 330; tx_counter := 7;
  tx_frequency := 868100000
|}.

(** The callback of a completed transmission. *)
Definition tx_done : LoRaObj :=
  {| pending_events := TX_PACKET_EVENT pycom_LoRa; last_stats := sample_stats |}.

(** A cycle in which the send goes through and nothing comes down. *)
Definition steady_cycle : CycleEnv := {|
  ce_send := SendOk;
  ce_during_send := [tx_done];
  ce_recv := ([], 0);
  ce_during_idle := []
|}.

(** A cycle in which the send times out. *)
Definition stalled_cycle : CycleEnv := {|
  ce_send := SendTimedOut;
  ce_during_send := [];
  ce_recv := ([], 0);
  ce_during_idle := []
|}.

(** A cycle in which the transmit callback lands only during the wait. *)
Definition late_cycle : CycleEnv := {|
  ce_send := SendOk;
  ce_during_send := [];
  ce_recv := ([], 0);
  ce_during_idle := [tx_done]
|}.

(** A board that joins at once and stays joined. *)
Definition steady_world : World := {|
  w_sysname := "LoPy4";
  w_release := "1.20.2";
  w_mac := ["112"%byte; "179"%byte; "213"%byte; "073"%byte;
            "149"%byte; "018"%byte; "052"%byte; "086"%byte];
  w_ticks_diff := Z.sub;
  w_float_seconds := fun d => Z.quot d 1000;
  w_start_ticks := 0;
  w_poll_joined := fun _ => true;
  w_poll_ticks := fun i => 1000 * Z.of_nat (S i);
  w_joined_after_poll := true;
  w_guard := fun _ => true;
  w_cycle := fun _ => steady_cycle
|}.

(** A board out of reach of any gateway: it never joins, and every pass of
    the join loop takes one second. *)
Definition lonely_world : World := {|
  w_sysname := "LoPy4";
  w_release := "1.20.2";
  w_mac := w_mac steady_world;
  w_ticks_diff := Z.sub;
  w_float_seconds := fun d => Z.quot d 1000;
  w_start_ticks := 0;
  w_poll_joined := fun _ => false;
  w_poll_ticks := fun i => 1000 * Z.of_nat (S i);
  w_joined_after_poll := false;
  w_guard := fun _ => false;
  w_cycle := fun _ => stalled_cycle
|}.

(** A board whose join comes through only after the script has given up:
    it is joined at the first test of the main loop and gone at the
    second. *)
Definition late_world : World := {|
  w_sysname := "LoPy4";
  w_release := "1.20.2";
  w_mac := w_mac steady_world;
  w_ticks_diff := Z.sub;
  w_float_seconds := fun d => Z.quot d 1000;
  w_start_ticks := 0;
  w_poll_joined := fun _ => false;
  w_poll_ticks := fun i => 1000 * Z.of_nat (S i);
  w_joined_after_poll := false;
  w_guard := fun k => Nat.eqb k 0;
  w_cycle := fun _ => steady_cycle
|}.

(** A board that never joins and whose passes take seven seconds. *)
Definition slow_world : World := {|
  w_sysname := "LoPy4";
  w_release := "1.20.2";
  w_mac := w_mac steady_world;
  w_ticks_diff := Z.sub;
  w_float_seconds := fun d => Z.quot d 1000;
  w_start_ticks := 0;
  w_poll_joined := fun _ => false;
  w_poll_ticks := fun i => 7000 * Z.of_nat i + 3;
  w_joined_after_poll := false;
  w_guard := fun _ => false;
  w_cycle := fun _ => stalled_cycle
|}.

(** A cycle in which two bytes come down on port 2. *)
Definition downlink_cycle : CycleEnv := {|
  ce_send := SendOk;
  ce_during_send := [tx_done];
  ce_recv := (["001"%byte; "A"%byte], 2);
  ce_during_idle := []
|}.

(** The callback of a transmission that failed and a packet that came in,
    all three bits at once. *)
Definition all_events : LoRaObj :=
  {| pending_events := 7; last_stats := sample_stats |}.

(** The globals on entry to the first cycle. *)
Definition first_globals : Globals := {| counter := Some 0; RX_EVENT := None |}.

(** The same cycle with another end of [s.send]. *)
Definition with_send (ce : CycleEnv) (r : send_result) : CycleEnv := {|
  ce_send := r;
  ce_during_send := ce_during_send ce;
  ce_recv := ce_recv ce;
  ce_during_idle := ce_during_idle ce
|}.

(** How often the LED is set to [color]. *)
Definition count_led (color : Z) (t : list effect) : nat :=
  List.length (filter (fun e => match e with
                                | Rgbled c => c =? color
                                | _ => false
                                end) t).

(** Seconds spent in [utime.sleep] over a trace. *)
Fixpoint slept (t : list effect) : Q :=
  match t with
  | [] => 0
  | Sleep d :: r => d + slept r
  | _ :: r => slept r
  end.

(** The colour the LED is left in by a trace, if the trace set it at all. *)
Fixpoint last_led (t : list effect) : option Z :=
  match t with
  | [] => None
  | Rgbled c :: r =>
      match last_led r with
      | Some c' => Some c'
      | None => Some c
      end
  | _ :: r => last_led r
  end.

(** The texts handed to [print], in order. *)
Fixpoint printed (t : list effect) : list string :=
  match t with
  | [] => []
  | Print text _ :: r => text :: printed r
  | _ :: r => printed r
  end.

(** The reference settings with another application EUI. *)
Definition with_app_eui (c : Config) (eui : string) : Config := {|
  LORA_DR := LORA_DR c;
  LORA_DR_JOIN := LORA_DR_JOIN c;
  LORA_ACK := LORA_ACK c;
  LORA_OTAA := LORA_OTAA c;
  OTAA_APP_EUI := eui;
  OTAA_APP_KEY := OTAA_APP_KEY c;
  OTAA_JOIN_TIMEOUT := OTAA_JOIN_TIMEOUT c;
  ABP_DEV_ADDR := ABP_DEV_ADDR c;
  ABP_NET_KEY := ABP_NET_KEY c;
  ABP_APP_KEY := ABP_APP_KEY c
|}.

(** The reference settings in ABP mode. *)
Definition abp_config : Config := {|
  LORA_DR := LORA_DR reference_config;
  LORA_DR_JOIN := LORA_DR_JOIN reference_config;
  LORA_ACK := LORA_ACK reference_config;
  LORA_OTAA := false;
  OTAA_APP_EUI := OTAA_APP_EUI reference_config;
  OTAA_APP_KEY := OTAA_APP_KEY reference_config;
  OTAA_JOIN_TIMEOUT := OTAA_JOIN_TIMEOUT reference_config;
  ABP_DEV_ADDR := ABP_DEV_ADDR reference_config;
  ABP_NET_KEY := ABP_NET_KEY reference_config;
  ABP_APP_KEY := ABP_APP_KEY reference_config
|}.

(** A board that joins during the third pass of the join loop and leaves
    the network after two cycles. *)
Definition brief_world : World := {|
  w_sysname := "LoPy4";
  w_release := "1.20.2";
  w_mac := w_mac steady_world;
  w_ticks_diff := Z.sub;
  w_float_seconds := fun d => Z.quot d 1000;
  w_start_ticks := 0;
  w_poll_joined := fun i => Nat.leb 3 i;
  w_poll_ticks := fun i => 1000 * Z.of_nat i;
  w_joined_after_poll := true;
  w_guard := fun k => Nat.ltb k 2;
  w_cycle := fun _ => steady_cycle
|}.

(** * Properties *)

(** ** Running the monad *)

Lemma bind_raised {A B} (m : M A) (k : A -> M B) g e g1 t1 :
  m g = (Raised e, g1, t1) -> bind m k g = (Raised e, g1, t1).
Proof. intros H. unfold bind. rewrite H. reflexivity. Qed.

Lemma run_eta {A} (r : outcome A * Globals * list effect) :
  r = (result_of r, globals_of r, trace_of r).
Proof. destruct r as [[o g] t]. reflexivity. Qed.

Lemma bind_seq {A B} (m : M A) (k : A -> M B) g a g1 t1 o g2 t2 :
  m g = (Done a, g1, t1) ->
  k a g1 = (o, g2, t2) ->
  bind m k g = (o, g2, (t1 ++ t2)%list).
Proof. intros H1 H2. unfold bind. rewrite H1, H2. reflexivity. Qed.

Lemma try_passes (body handler : M unit) g g1 t1 :
  body g = (Done tt, g1, t1) ->
  try_except_timeout body handler g = (Done tt, g1, t1).
Proof. intros H. unfold try_except_timeout. rewrite H. reflexivity. Qed.

Lemma try_catches (body handler : M unit) g g1 t1 o g2 t2 :
  body g = (Raised SocketTimeout, g1, t1) ->
  handler g1 = (o, g2, t2) ->
  try_except_timeout body handler g = (o, g2, (t1 ++ t2)%list).
Proof. intros H1 H2. unfold try_except_timeout. rewrite H1, H2. reflexivity. Qed.

Lemma try_lets_through (body handler : M unit) g e g1 t1 :
  body g = (Raised e, g1, t1) ->
  e <> SocketTimeout ->
  try_except_timeout body handler g = (Raised e, g1, t1).
Proof.
  intros H Hne. unfold try_except_timeout. rewrite H.
  destruct e; congruence.
Qed.

(** Run the first statement of a sequence with [tac], then go on. *)
Ltac run_with tac := eapply bind_seq; [ tac | cbv beta ].
Ltac run_prim := run_with ltac:(reflexivity).

Lemma append_empty_r (s : string) : s ++ EmptyString = s.
Proof. induction s as [|c s IH]; cbn; [reflexivity | now rewrite IH]. Qed.

(** ** [flash_led] *)

Lemma flash_led_run color on pause repeat g :
  flash_led color on pause repeat g
  = (Done tt, g, flash_trace color on pause repeat).
Proof.
  induction repeat as [|n IH]; [reflexivity|].
  cbn [flash_led flash_trace]. unfold bind at 1 2 3 4, emit.
  rewrite IH. reflexivity.
Qed.

(** ** [event_handler] *)

Section HandlerFacts.

Variable cfg : Config.
Variable LoRa : LoRaClass.

(** The complete behaviour of the handler when the transmit bit is set. *)
Lemma event_handler_tx lora g :
  tx_bit LoRa (pending_events lora) = true ->
  event_handler cfg LoRa lora g =
    let events := pending_events lora in
    let stats := last_stats lora in
    let rx := LORA_ACK cfg || rx_bit LoRa events in
    (Done tt,
     (if rx then mark_rx g else g),
     ([LoraEvents events; LoraStats]
      ++ (if rx then flash_trace LED_PINK (1 # 10) (3 # 10) 2 else [])
      ++ [Print (tx_text stats ++ (if rx then rx_text stats else EmptyString)) nl]
      ++ (if failed_bit LoRa events then [Print (warning_text stats) nl] else []))%list).
Proof.
  intros Htx. destruct lora as [events stats]. cbn [pending_events last_stats] in *.
  assert (Hnz : (events =? 0) = false).
  { unfold tx_bit, truthy in Htx. destruct (Z.eqb_spec events 0) as [->|]; [|reflexivity].
    rewrite Z.land_0_l in Htx. discriminate. }
  unfold event_handler, lora_events, lora_stats, wants_rx.
  cbn [pending_events last_stats].
  unfold tx_bit in Htx. unfold rx_bit, failed_bit.
  unfold bind at 1 2. unfold emit at 1. unfold ret at 1. cbn [app].
  rewrite Hnz. unfold bind at 1 2. unfold emit at 1. unfold ret at 1. cbn [app].
  rewrite Htx. cbn [andb].
  destruct (LORA_ACK cfg || truthy (Z.land events (RX_PACKET_EVENT LoRa))) eqn:Hrx.
  - destruct (truthy (Z.land events (TX_FAILED_EVENT LoRa)));
      cbv [bind load ret set_RX_EVENT flash_led emit print mark_rx flash_trace app];
      rewrite ?append_empty_r; reflexivity.
  - destruct (truthy (Z.land events (TX_FAILED_EVENT LoRa)));
      cbv [bind load ret emit print app];
      rewrite ?append_empty_r; reflexivity.
Qed.

(** Without the transmit bit, any pending event makes the handler read the
    unbound local [msg]. *)
Lemma event_handler_no_tx lora g :
  pending_events lora <> 0 ->
  tx_bit LoRa (pending_events lora) = false ->
  event_handler cfg LoRa lora g
  = (Raised NameError, g, [LoraEvents (pending_events lora); LoraStats]).
Proof.
  intros Hnz Htx. destruct lora as [events stats]. cbn [pending_events] in *.
  apply Z.eqb_neq in Hnz. unfold tx_bit in Htx.
  unfold event_handler, lora_events, lora_stats, wants_rx.
  cbn [pending_events last_stats].
  unfold bind at 1 2. unfold emit at 1. unfold ret at 1. cbn [app].
  rewrite Hnz. unfold bind at 1 2. unfold emit at 1. unfold ret at 1. cbn [app].
  rewrite Htx. cbn [andb orb].
  destruct (truthy (Z.land events (RX_PACKET_EVENT LoRa))); reflexivity.
Qed.

Lemma event_handler_idle lora g :
  pending_events lora = 0 ->
  event_handler cfg LoRa lora g = (Done tt, g, [LoraEvents 0]).
Proof.
  intros H. destruct lora as [events stats]. cbn [pending_events] in H. subst.
  reflexivity.
Qed.

End HandlerFacts.

(** ** The main loop's cycle *)

Section CycleFacts.

Variable cfg : Config.
Variable LoRa : LoRaClass.

Lemma run_callback_run lora g :
  run_callback cfg LoRa lora g
  = (Done tt, (if sets_flag cfg LoRa lora then mark_rx g else g),
     trace_of (run_callback cfg LoRa lora g)).
Proof.
  unfold run_callback, sets_flag.
  destruct (tx_bit LoRa (pending_events lora)) eqn:Htx.
  - rewrite (event_handler_tx cfg LoRa lora g Htx). cbn zeta. cbn [andb].
    destruct (LORA_ACK cfg || rx_bit LoRa (pending_events lora)); reflexivity.
  - cbn [andb]. destruct (Z.eq_dec (pending_events lora) 0) as [H0|Hnz].
    + rewrite (event_handler_idle cfg LoRa lora g H0). reflexivity.
    + rewrite (event_handler_no_tx cfg LoRa lora g Hnz Htx). reflexivity.
Qed.

Lemma run_callbacks_run l g :
  run_callbacks cfg LoRa l g
  = (Done tt, after_callbacks cfg LoRa l g, trace_of (run_callbacks cfg LoRa l g)).
Proof.
  revert g. induction l as [|lora l IH]; intros g; [reflexivity|].
  cbn [run_callbacks]. unfold bind.
  rewrite (run_callback_run lora g). rewrite IH.
  cbn [trace_of snd]. f_equal. f_equal.
  unfold after_callbacks. cbn [existsb].
  destruct (sets_flag cfg LoRa lora); cbn [orb]; [|reflexivity].
  destruct (existsb (sets_flag cfg LoRa) l); reflexivity.
Qed.

Lemma after_callbacks_counter l g :
  counter (after_callbacks cfg LoRa l g) = counter g.
Proof. unfold after_callbacks. destruct (existsb (sets_flag cfg LoRa) l); reflexivity. Qed.

Lemma after_callbacks_flag l g :
  RX_EVENT (after_callbacks cfg LoRa l g)
  = if existsb (sets_flag cfg LoRa) l then Some true else RX_EVENT g.
Proof. unfold after_callbacks. destruct (existsb (sets_flag cfg LoRa) l); reflexivity. Qed.

Lemma await_and_classify_run ce g flag :
  RX_EVENT g = Some flag ->
  await_and_classify ce g
  = (Done tt, g,
     [Recvfrom 64 (fst (ce_recv ce)) (snd (ce_recv ce));
      Print (outcome_line (classify flag (fst (ce_recv ce)))
               (fst (ce_recv ce)) (snd (ce_recv ce))) nl]).
Proof.
  intros Hf. unfold await_and_classify, s_recvfrom, get_RX_EVENT, classify.
  unfold bind at 1 2. unfold emit at 1. unfold ret at 1. cbn [app].
  unfold bind. rewrite Hf. cbn [load ret].
  destruct (flag && Nat.eqb (List.length (fst (ce_recv ce))) 0);
    [reflexivity|].
  destruct (Nat.ltb 0 (List.length (fst (ce_recv ce)))); reflexivity.
Qed.

Lemma idle_run ce g :
  idle cfg LoRa ce g
  = (Done tt, after_callbacks cfg LoRa (ce_during_idle ce) g, idle_trace cfg LoRa ce g).
Proof.
  unfold idle, idle_trace, print. unfold bind at 1. unfold emit at 1.
  unfold bind at 1. rewrite run_callbacks_run.
  unfold bind at 1. unfold emit at 1.
  rewrite flash_led_run. cbn [trace_of snd app]. reflexivity.
Qed.

Lemma try_send_run ce c g payload :
  bytes_of_int c = Some payload ->
  try_send cfg LoRa ce c g
  = match ce_send ce with
    | SendOk =>
        (Done tt, after_callbacks cfg LoRa (ce_during_send ce) g,
         (send_trace cfg LoRa ce payload g ++ [Print "OK." nl])%list)
    | SendTimedOut =>
        (Raised SocketTimeout, after_callbacks cfg LoRa (ce_during_send ce) g,
         send_trace cfg LoRa ce payload g)
    end.
Proof.
  intros Hb. unfold try_send, send_trace, bytes_m, s_send, print.
  rewrite Hb.
  unfold bind at 1. unfold emit at 1.
  unfold bind at 1. unfold emit at 1.
  unfold bind at 1. rewrite flash_led_run.
  unfold bind at 1. unfold ret at 1.
  unfold bind at 1. unfold bind at 1. unfold emit at 1.
  unfold bind at 1. rewrite run_callbacks_run.
  destruct (ce_send ce); cbn [ret raise bind emit trace_of snd app];
    rewrite ?app_nil_r; reflexivity.
Qed.

Lemma try_send_overflow ce c g :
  bytes_of_int c = None ->
  try_send cfg LoRa ce c g
  = (Raised ValueError, g,
     ([Setblocking true; Settimeout 10]
      ++ flash_trace LED_GREEN (1 # 10) (3 # 10) 2)%list).
Proof.
  intros Hb. unfold try_send, bytes_m. rewrite Hb.
  unfold bind at 1. unfold emit at 1.
  unfold bind at 1. unfold emit at 1.
  unfold bind at 1. rewrite flash_led_run.
  reflexivity.
Qed.

End CycleFacts.

(** ** [bytes([n])] *)

Lemma bytes_of_int_in_range n :
  0 <= n < 256 ->
  exists b, bytes_of_int n = Some [b] /\ byte_val b = n.
Proof.
  intros Hn. unfold bytes_of_int, byte_val.
  destruct (Z.ltb_spec n 0) as [Hlt|_]; [lia|].
  destruct (Byte.of_N (Z.to_N n)) as [b|] eqn:Hb.
  - exists b. split; [reflexivity|].
    apply Byte.to_of_N in Hb. rewrite Hb. apply Z2N.id. lia.
  - apply Byte.of_N_None_iff in Hb. lia.
Qed.

Lemma bytes_of_int_out_of_range n :
  n < 0 \/ 256 <= n -> bytes_of_int n = None.
Proof.
  intros Hn. unfold bytes_of_int.
  destruct (Z.ltb_spec n 0) as [Hlt|Hge]; [reflexivity|].
  destruct (Byte.of_N (Z.to_N n)) as [b|] eqn:Hb; [|reflexivity].
  apply Byte.to_of_N in Hb. pose proof (Byte.to_N_bounded b). lia.
Qed.

Section LoopFacts.

Variable cfg : Config.
Variable LoRa : LoRaClass.

(** A cycle whose counter still fits a byte runs to its end. *)
Lemma cycle_run ce g c payload :
  counter g = Some c ->
  bytes_of_int (c + 1) = Some payload ->
  cycle cfg LoRa ce g
  = (Done tt,
     after_callbacks cfg LoRa (ce_during_idle ce) (at_classify cfg LoRa ce c),
     (Print (sending_text cfg (c + 1)) EmptyString
      :: send_trace cfg LoRa ce payload (entered c)
      ++ send_epilogue (ce_send ce)
      ++ receive_trace cfg LoRa ce c)%list).
Proof.
  intros Hc Hb.
  assert (Hflag : RX_EVENT (at_classify cfg LoRa ce c)
                  = Some (existsb (sets_flag cfg LoRa) (ce_during_send ce))).
  { unfold at_classify. rewrite after_callbacks_flag.
    destruct (existsb (sets_flag cfg LoRa) (ce_during_send ce)); reflexivity. }
  pose proof (try_send_run cfg LoRa ce (c + 1) (entered c) payload Hb) as Hsend.
  fold (at_classify cfg LoRa ce c) in Hsend.
  unfold receive_trace.
  destruct (ce_send ce); (etransitivity; [unfold cycle|]).
  - run_with ltac:(unfold get_counter; rewrite Hc; reflexivity).
    run_prim. run_prim. run_prim. run_prim.
    run_with ltac:(apply try_passes; exact Hsend).
    run_prim.
    run_with ltac:(apply (await_and_classify_run ce _ _ Hflag)).
    apply idle_run.
  - cbn [send_epilogue app]. rewrite <- ?app_assoc. reflexivity.
  - run_with ltac:(unfold get_counter; rewrite Hc; reflexivity).
    run_prim. run_prim. run_prim. run_prim.
    run_with ltac:(eapply try_catches; [exact Hsend|];
                   unfold on_timeout;
                   run_with ltac:(apply flash_led_run); reflexivity).
    run_prim.
    run_with ltac:(apply (await_and_classify_run ce _ _ Hflag)).
    apply idle_run.
  - cbn [send_epilogue app]. rewrite <- ?app_assoc. reflexivity.
Qed.

(** A cycle whose counter no longer fits a byte stops at [bytes([counter])]:
    the [ValueError] is not a [socket.timeout], so nothing catches it. *)
Lemma cycle_overflow ce g c :
  counter g = Some c ->
  bytes_of_int (c + 1) = None ->
  cycle cfg LoRa ce g
  = (Raised ValueError, entered c,
     (Print (sending_text cfg (c + 1)) EmptyString
      :: [Setblocking true; Settimeout 10]
      ++ flash_trace LED_GREEN (1 # 10) (3 # 10) 2)%list).
Proof.
  intros Hc Hb.
  pose proof (try_send_overflow cfg LoRa ce (c + 1) (entered c) Hb) as Hsend.
  etransitivity.
  { unfold cycle.
    run_with ltac:(unfold get_counter; rewrite Hc; reflexivity).
    run_prim. run_prim. run_prim. run_prim.
    apply bind_raised. apply try_lets_through; [exact Hsend | discriminate]. }
  reflexivity.
Qed.

End LoopFacts.

(** ** Uplinks in a trace *)

Lemma uplinks_app t1 t2 : uplinks (t1 ++ t2) = (uplinks t1 ++ uplinks t2)%list.
Proof.
  induction t1 as [|e t1 IH]; [reflexivity|].
  destruct e; cbn [uplinks app]; rewrite IH; reflexivity.
Qed.

Lemma uplinks_flash color on pause n :
  uplinks (flash_trace color on pause n) = [].
Proof. induction n as [|n IH]; [reflexivity | exact IH]. Qed.

Lemma quiet_ret {A} (a : A) : quiet (ret a).
Proof. intros g. split; reflexivity. Qed.

Lemma quiet_raise {A} (e : exn) : quiet (@raise A e).
Proof. intros g. split; reflexivity. Qed.

Lemma quiet_out_of_fuel {A} : quiet (@out_of_fuel A).
Proof. intros g. split; reflexivity. Qed.

Lemma quiet_emit e : uplinks [e] = [] -> quiet (emit e).
Proof. intros H g. split; [reflexivity | exact H]. Qed.

Lemma quiet_bind {A B} (m : M A) (k : A -> M B) :
  quiet m -> (forall a, quiet (k a)) -> quiet (bind m k).
Proof.
  intros Hm Hk g. unfold bind. specialize (Hm g).
  destruct (m g) as [[o g1] t1]. cbn [globals_of trace_of fst snd] in Hm.
  destruct Hm as [-> Ht1].
  destruct o as [a| |];
    [|split; [reflexivity|assumption]|split; [reflexivity|assumption]].
  specialize (Hk a g). destruct (k a g) as [[o2 g2] t2].
  cbn [globals_of trace_of fst snd] in *. destruct Hk as [-> Ht2].
  split; [reflexivity|]. rewrite uplinks_app, Ht1, Ht2. reflexivity.
Qed.

Lemma quiet_flash_led color on pause n : quiet (flash_led color on pause n).
Proof.
  intros g. rewrite flash_led_run. split; [reflexivity|].
  apply uplinks_flash.
Qed.

Ltac quiet_steps :=
  repeat first
    [ apply quiet_ret | apply quiet_raise | apply quiet_out_of_fuel
    | apply quiet_flash_led
    | apply quiet_emit; reflexivity
    | apply quiet_bind; [|intros ?] ].

(** ** What a cycle sends *)

Section PayloadFacts.

Variable cfg : Config.
Variable LoRa : LoRaClass.

Lemma uplinks_event_handler lora g :
  uplinks (trace_of (event_handler cfg LoRa lora g)) = [].
Proof.
  destruct (tx_bit LoRa (pending_events lora)) eqn:Htx.
  - rewrite (event_handler_tx cfg LoRa lora g Htx). cbv zeta.
    cbn [trace_of snd].
    destruct (LORA_ACK cfg || rx_bit LoRa (pending_events lora));
      destruct (failed_bit LoRa (pending_events lora)); reflexivity.
  - destruct (Z.eq_dec (pending_events lora) 0) as [H0|Hnz].
    + rewrite (event_handler_idle cfg LoRa lora g H0). reflexivity.
    + rewrite (event_handler_no_tx cfg LoRa lora g Hnz Htx). reflexivity.
Qed.

Lemma uplinks_run_callback lora g :
  uplinks (trace_of (run_callback cfg LoRa lora g)) = [].
Proof.
  pose proof (uplinks_event_handler lora g) as H. unfold run_callback.
  destruct (event_handler cfg LoRa lora g) as [[[a|e|] g1] t1];
    cbn [trace_of snd] in *; try exact H.
  rewrite uplinks_app, H. reflexivity.
Qed.

Lemma uplinks_run_callbacks l :
  forall g, uplinks (trace_of (run_callbacks cfg LoRa l g)) = [].
Proof.
  induction l as [|lora l IH]; intros g; [reflexivity|].
  cbn [run_callbacks].
  rewrite (bind_seq _ _ g tt _ _ _ _ _ (run_callback_run cfg LoRa lora g)
             (run_eta _)).
  cbn [trace_of snd]. rewrite uplinks_app, uplinks_run_callback, IH.
  reflexivity.
Qed.

(** While the counter fits a byte, a cycle adds one to it and sends it as
    the only packet of the cycle. *)
Lemma cycle_sends_counter ce g c :
  counter g = Some c ->
  0 <= c < 255 ->
  exists b,
    uplinks (trace_of (cycle cfg LoRa ce g)) = [[b]]
    /\ byte_val b = (c + 1) mod 256
    /\ counter (globals_of (cycle cfg LoRa ce g)) = Some (c + 1).
Proof.
  intros Hc Hrange.
  destruct (bytes_of_int_in_range (c + 1)) as [b [Hb Hval]]; [lia|].
  exists b. rewrite (cycle_run cfg LoRa ce g c [b] Hc Hb).
  cbn [trace_of globals_of fst snd]. split; [|split].
  - unfold send_trace, receive_trace, idle_trace.
    cbn [uplinks app]. rewrite !uplinks_app. cbn [uplinks].
    rewrite !uplinks_app, !uplinks_flash, !uplinks_run_callbacks.
    cbn [uplinks app].
    destruct (ce_send ce); cbn [send_epilogue]; rewrite ?uplinks_app;
      rewrite ?uplinks_flash; reflexivity.
  - rewrite Hval. symmetry. apply Z.mod_small. lia.
  - unfold at_classify. rewrite !after_callbacks_counter. reflexivity.
Qed.

(** From 255 on, the cycle stops at [bytes([counter])] and sends
    nothing. *)
Lemma cycle_overflows ce g c :
  counter g = Some c ->
  255 <= c ->
  result_of (cycle cfg LoRa ce g) = Raised ValueError
  /\ uplinks (trace_of (cycle cfg LoRa ce g)) = []
  /\ counter (globals_of (cycle cfg LoRa ce g)) = Some (c + 1).
Proof.
  intros Hc Hbig.
  rewrite (cycle_overflow cfg LoRa ce g c Hc
             (bytes_of_int_out_of_range (c + 1) ltac:(lia))).
  repeat split.
Qed.

End PayloadFacts.

(** ** The join *)

Section JoinFacts.

Variable cfg : Config.
Variable w : World.

Lemma quiet_unhexlify_m s : quiet (unhexlify_m s).
Proof. unfold unhexlify_m. destruct (unhexlify s); quiet_steps. Qed.

Lemma quiet_join_poll fuel :
  forall i start_join otaa_timer,
    quiet (join_poll cfg w fuel i start_join otaa_timer).
Proof.
  induction fuel as [|fuel IH]; intros i start_join otaa_timer;
    cbn [join_poll]; [apply quiet_out_of_fuel|].
  unfold has_joined, ticks_ms, print_noeol.
  apply quiet_bind; [quiet_steps|]. intros joined.
  destruct (negb joined && (otaa_timer <? OTAA_JOIN_TIMEOUT cfg));
    [|apply quiet_ret].
  apply quiet_bind; [quiet_steps|]. intros now.
  apply quiet_bind; [quiet_steps|]. intros _.
  apply quiet_bind; [quiet_steps|]. intros _.
  apply IH.
Qed.

Lemma quiet_otaa_join fuel : quiet (otaa_join cfg w fuel).
Proof.
  unfold otaa_join, has_joined, ticks_ms, print_noeol, print.
  apply quiet_bind; [apply quiet_unhexlify_m|]. intros app_eui.
  apply quiet_bind; [apply quiet_unhexlify_m|]. intros app_key.
  apply quiet_bind; [quiet_steps|]. intros _.
  apply quiet_bind; [quiet_steps|]. intros _.
  apply quiet_bind; [quiet_steps|]. intros start_join.
  apply quiet_bind; [apply quiet_join_poll|]. intros otaa_timer.
  apply quiet_bind; [quiet_steps|]. intros joined.
  apply quiet_bind; [destruct joined; quiet_steps|]. intros _.
  apply quiet_ret.
Qed.

Lemma quiet_abp_join : quiet (abp_join cfg).
Proof.
  unfold abp_join, print.
  apply quiet_bind; [quiet_steps|]. intros _.
  apply quiet_bind; [apply quiet_unhexlify_m|]. intros addr_bytes.
  apply quiet_bind.
  { destruct addr_bytes as [|b3 [|b2 [|b1 [|b0 r]]]]; try apply quiet_raise.
    destruct (unpack_be_long [b3; b2; b1; b0]); quiet_steps. }
  intros dev_addr.
  apply quiet_bind; [apply quiet_unhexlify_m|]. intros nwk_swkey.
  apply quiet_bind; [apply quiet_unhexlify_m|]. intros app_swkey.
  quiet_steps.
Qed.

(** The loop's test fails: the loop is left. *)
Lemma join_poll_exit fuel i start_join otaa_timer g :
  (negb (w_poll_joined w i) && (otaa_timer <? OTAA_JOIN_TIMEOUT cfg)) = false ->
  join_poll cfg w (S fuel) i start_join otaa_timer g
  = (Done otaa_timer, g, [HasJoined (w_poll_joined w i)]).
Proof.
  intros Hexit. cbn [join_poll].
  etransitivity.
  { run_prim. rewrite Hexit. reflexivity. }
  reflexivity.
Qed.

(** The loop's test holds: one pass, then the loop again. *)
Lemma join_poll_step fuel i start_join otaa_timer g o g' t :
  w_poll_joined w i = false ->
  otaa_timer < OTAA_JOIN_TIMEOUT cfg ->
  join_poll cfg w fuel (S i) start_join
    (elapsed_seconds w (w_poll_ticks w i) start_join) g = (o, g', t) ->
  join_poll cfg w (S fuel) i start_join otaa_timer g
  = (o, g', (poll_iteration w i ++ t)%list).
Proof.
  intros Hj Hlt Hrest. cbn [join_poll].
  rewrite Hj. apply Z.ltb_lt in Hlt.
  etransitivity.
  { run_prim. cbn [negb andb]. rewrite Hlt.
    run_prim. run_prim.
    run_with ltac:(apply flash_led_run). exact Hrest. }
  reflexivity.
Qed.

(** The loop when the network never answers: it goes round until the
    first pass [i + n] that brings [otaa_timer] up to the timeout. *)
Lemma join_poll_run n :
  forall fuel i otaa_timer g,
    (forall j, w_poll_joined w j = false) ->
    otaa_timer < OTAA_JOIN_TIMEOUT cfg ->
    (forall j, (j < n)%nat -> timer_after w (i + j) < OTAA_JOIN_TIMEOUT cfg) ->
    OTAA_JOIN_TIMEOUT cfg <= timer_after w (i + n) ->
    (n + 1 < fuel)%nat ->
    join_poll cfg w fuel i (w_start_ticks w) otaa_timer g
    = (Done (timer_after w (i + n)), g,
       (poll_trace w i (S n) ++ [HasJoined false])%list).
Proof.
  induction n as [|n IH]; intros fuel i otaa_timer g Hnever Hlt Hbelow Hreach Hfuel.
  - destruct fuel as [|[|fuel]]; [lia|lia|].
    rewrite Nat.add_0_r in *.
    cbn [poll_trace]. rewrite app_nil_r.
    apply join_poll_step; [apply Hnever | exact Hlt |].
    fold (timer_after w i). rewrite <- (Hnever (S i)).
    apply join_poll_exit. rewrite Hnever. cbn [negb andb].
    apply Z.ltb_ge. exact Hreach.
  - destruct fuel as [|fuel]; [lia|].
    assert (Hnext : timer_after w i < OTAA_JOIN_TIMEOUT cfg).
    { specialize (Hbelow 0%nat). rewrite Nat.add_0_r in Hbelow.
      apply Hbelow. lia. }
    replace (i + S n)%nat with (S i + n)%nat by lia.
    change (poll_trace w i (S (S n)))
      with (poll_iteration w i ++ poll_trace w (S i) (S n))%list.
    rewrite <- app_assoc.
    apply join_poll_step; [apply Hnever | exact Hlt |].
    fold (timer_after w i).
    apply (IH fuel (S i) (timer_after w i) g Hnever Hnext).
    + intros j Hj. replace (S i + j)%nat with (i + S j)%nat by lia.
      apply Hbelow. lia.
    + replace (S i + n)%nat with (i + S n)%nat by lia. exact Hreach.
    + lia.
Qed.

End JoinFacts.

(** ** The main loop and the script *)

Section ScriptFacts.

Variable cfg : Config.
Variable LoRa : LoRaClass.
Variable w : World.

Lemma main_loop_stops fuel k g :
  w_guard w k = false ->
  main_loop cfg LoRa w (S fuel) k g = (Done tt, g, [HasJoined false]).
Proof.
  intros Hg. cbn [main_loop]. rewrite Hg.
  etransitivity; [run_prim; reflexivity | reflexivity].
Qed.

Lemma main_loop_step fuel k g g1 t1 o g2 t2 :
  w_guard w k = true ->
  cycle cfg LoRa (w_cycle w k) g = (Done tt, g1, t1) ->
  main_loop cfg LoRa w fuel (S k) g1 = (o, g2, t2) ->
  main_loop cfg LoRa w (S fuel) k g
  = (o, g2, (HasJoined true :: t1 ++ t2)%list).
Proof.
  intros Hg Hc Hrest. cbn [main_loop]. rewrite Hg.
  etransitivity.
  { run_prim. run_with ltac:(exact Hc). exact Hrest. }
  reflexivity.
Qed.

(** A cycle raises as soon as the incremented counter leaves a byte. *)
Lemma main_loop_overflow fuel k g c :
  w_guard w k = true ->
  counter g = Some c ->
  bytes_of_int (c + 1) = None ->
  result_of (main_loop cfg LoRa w (S fuel) k g) = Raised ValueError.
Proof.
  intros Hg Hc Hb. cbn [main_loop]. rewrite Hg.
  erewrite bind_seq; [| reflexivity |].
  2:{ cbv beta. cbn [fst snd]. apply bind_raised.
      apply (cycle_overflow cfg LoRa _ _ _ Hc Hb). }
  reflexivity.
Qed.

(** While the counter fits a byte, the loop runs until its guard fails. *)
Lemma main_loop_exits K :
  forall fuel k c g,
    counter g = Some c ->
    0 <= c ->
    c + Z.of_nat K <= 255 ->
    (forall j, (j < K)%nat -> w_guard w (k + j) = true) ->
    w_guard w (k + K) = false ->
    (K < fuel)%nat ->
    result_of (main_loop cfg LoRa w fuel k g) = Done tt
    /\ counter (globals_of (main_loop cfg LoRa w fuel k g))
       = Some (c + Z.of_nat K).
Proof.
  induction K as [|K IH]; intros fuel k c g Hc Hc0 Hmax Htrue Hfalse Hfuel;
    (destruct fuel as [|fuel]; [lia|]).
  - rewrite Nat.add_0_r in Hfalse.
    rewrite (main_loop_stops fuel k g Hfalse).
    cbn [result_of globals_of fst snd]. rewrite Z.add_0_r. auto.
  - assert (Hg : w_guard w k = true).
    { specialize (Htrue 0%nat). rewrite Nat.add_0_r in Htrue.
      apply Htrue. lia. }
    destruct (bytes_of_int_in_range (c + 1)) as [b [Hb _]]; [lia|].
    pose proof (cycle_run cfg LoRa (w_cycle w k) g c [b] Hc Hb) as Hcycle.
    set (g1 := after_callbacks cfg LoRa (ce_during_idle (w_cycle w k))
                 (at_classify cfg LoRa (w_cycle w k) c)) in *.
    assert (Hc1 : counter g1 = Some (c + 1)).
    { unfold g1, at_classify. rewrite !after_callbacks_counter. reflexivity. }
    destruct (IH fuel (S k) (c + 1) g1 Hc1) as [Hres Hcnt]; try lia.
    { intros j Hj. replace (S k + j)%nat with (k + S j)%nat by lia.
      apply Htrue. lia. }
    { replace (S k + K)%nat with (k + S K)%nat by lia. exact Hfalse. }
    rewrite (main_loop_step fuel k g g1 _ _ _ _ Hg Hcycle
               (run_eta (main_loop cfg LoRa w fuel (S k) g1))).
    cbn [result_of globals_of fst snd].
    split; [exact Hres|]. rewrite Hcnt. f_equal. lia.
Qed.

(** The script in OTAA mode, once the join phase and the main loop have
    both come to their end. *)
Lemma script_otaa_run fuel g timer g1 tj g2 tl :
  LORA_OTAA cfg = true ->
  otaa_join cfg w fuel g = (Done timer, g1, tj) ->
  main_loop cfg LoRa w fuel 0 (at_loop_entry g1) = (Done tt, g2, tl) ->
  script cfg LoRa w fuel g
  = (Done tt, g2,
     (preamble w ++ tj ++ setup_trace cfg LoRa ++ tl ++ [Rgbled LED_RED])%list).
Proof.
  intros Hmode Hjoin Hloop. unfold script. rewrite Hmode.
  etransitivity.
  { run_prim. run_prim. run_prim.
    run_with ltac:(run_with ltac:(exact Hjoin); reflexivity).
    run_prim. run_prim.
    run_with ltac:(exact Hloop). reflexivity. }
  unfold preamble, setup_trace. cbn [app]. rewrite app_nil_r.
  reflexivity.
Qed.

Lemma calm_after_quiet {A B} (m : M A) (k : A -> M B) g :
  quiet m ->
  (forall a, calm (counter g) (k a g)) ->
  calm (counter g) (bind m k g).
Proof.
  intros Hm Hk. unfold bind. specialize (Hm g).
  destruct (m g) as [[o g1] t1]. cbn [globals_of trace_of fst snd] in Hm.
  destruct Hm as [-> Ht1].
  destruct o as [a| |]; [|split; [exact Ht1|left; reflexivity]..].
  specialize (Hk a). destruct (k a g) as [[o2 g2] t2].
  unfold calm in *. cbn [globals_of trace_of fst snd] in *.
  destruct Hk as [Ht2 Hc]. split; [|exact Hc].
  rewrite uplinks_app, Ht1, Ht2. reflexivity.
Qed.

Lemma quiet_join_phase fuel :
  quiet (if LORA_OTAA cfg then otaa_join cfg w fuel;; ret tt else abp_join cfg).
Proof.
  destruct (LORA_OTAA cfg).
  - apply quiet_bind; [apply quiet_otaa_join | intros _; apply quiet_ret].
  - apply quiet_abp_join.
Qed.

Lemma quiet_socket_setup : quiet (socket_setup cfg LoRa).
Proof. unfold socket_setup. quiet_steps. Qed.

Lemma script_calm fuel g :
  w_guard w 0 = false ->
  calm (counter g) (script cfg LoRa w fuel g).
Proof.
  intros Hguard. unfold script, print.
  apply calm_after_quiet; [quiet_steps|]. intros _.
  apply calm_after_quiet; [quiet_steps|]. intros _.
  apply calm_after_quiet; [quiet_steps|]. intros _.
  apply calm_after_quiet; [apply quiet_join_phase|]. intros _.
  apply calm_after_quiet; [apply quiet_socket_setup|]. intros _.
  destruct fuel as [|fuel].
  - split; [reflexivity | right; reflexivity].
  - erewrite bind_seq; [| reflexivity |].
    2:{ cbv beta. run_with ltac:(apply main_loop_stops; exact Hguard).
        reflexivity. }
    split; [reflexivity | right; reflexivity].
Qed.

End ScriptFacts.

(** Lines 82-97 when the network never answers; [n] is the first pass that
    brings [otaa_timer] up to the timeout. *)
Lemma otaa_join_timeout_run (cfg : Config) (w : World) (n fuel : nat)
    (app_eui app_key : bytes) (g : Globals) :
  unhexlify (OTAA_APP_EUI cfg) = Some app_eui ->
  unhexlify (OTAA_APP_KEY cfg) = Some app_key ->
  0 < OTAA_JOIN_TIMEOUT cfg ->
  (forall i, w_poll_joined w i = false) ->
  w_joined_after_poll w = false ->
  (forall j, (j < n)%nat -> timer_after w j < OTAA_JOIN_TIMEOUT cfg) ->
  OTAA_JOIN_TIMEOUT cfg <= timer_after w n ->
  (n + 1 < fuel)%nat ->
  otaa_join cfg w fuel g
  = (Done (timer_after w n), g,
     (JoinOTAA app_eui app_key 0 (LORA_DR_JOIN cfg)
      :: Print "Starting OTAA join..." EmptyString
      :: TicksMs (w_start_ticks w)
      :: poll_trace w 0 (S n)
      ++ [HasJoined false; HasJoined false; Print "timeout, failed!" nl;
          Rgbled LED_RED; Sleep 1; Rgbled LED_OFF; Sleep 1])%list).
Proof.
  intros Heui Hkey Hpos Hnever Hafter Hbelow Hreach Hfuel.
  pose proof (join_poll_run cfg w n fuel 0 0 g Hnever Hpos Hbelow Hreach Hfuel)
    as Hpoll.
  cbn [Nat.add] in Hpoll.
  unfold otaa_join, unhexlify_m. rewrite Heui, Hkey, Hafter.
  etransitivity.
  { run_prim. run_prim. run_prim. run_prim. run_prim.
    run_with ltac:(exact Hpoll).
    run_prim.
    run_with ltac:(run_prim; apply flash_led_run).
    reflexivity. }
  cbn [app flash_trace]. rewrite <- app_assoc. reflexivity.
Qed.

(** While the delta is below 2^20 the timer is its integer quotient. *)
Lemma timer_after_exact (w : World) (i : nat) :
  0 <= ticks_delta w i < 2 ^ 20 ->
  timer_after w i = ticks_delta w i / 1000.
Proof.
  intros [Hlo Hhi]. unfold timer_after, elapsed_seconds. fold (ticks_delta w i).
  cbv zeta.
  assert (Hin : ((- 2 ^ 20 <? ticks_delta w i) && (ticks_delta w i <? 2 ^ 20))
                = true).
  { apply andb_true_iff. split; apply Z.ltb_lt; [|exact Hhi].
    change (- 2 ^ 20) with (-1048576). lia. }
  rewrite Hin. apply Z.quot_div_nonneg; lia.
Qed.

(** The same, with the deadline read off the wall-clock deltas. *)
Lemma otaa_join_deadline_run (cfg : Config) (w : World) (n fuel : nat)
    (app_eui app_key : bytes) (g : Globals) :
  unhexlify (OTAA_APP_EUI cfg) = Some app_eui ->
  unhexlify (OTAA_APP_KEY cfg) = Some app_key ->
  0 < OTAA_JOIN_TIMEOUT cfg ->
  (forall i, w_poll_joined w i = false) ->
  w_joined_after_poll w = false ->
  (forall j, (j <= n)%nat -> 0 <= ticks_delta w j < 2 ^ 20) ->
  (forall j, (j < n)%nat -> ticks_delta w j < 1000 * OTAA_JOIN_TIMEOUT cfg) ->
  1000 * OTAA_JOIN_TIMEOUT cfg <= ticks_delta w n ->
  (n + 1 < fuel)%nat ->
  otaa_join cfg w fuel g
  = (Done (ticks_delta w n / 1000), g,
     (JoinOTAA app_eui app_key 0 (LORA_DR_JOIN cfg)
      :: Print "Starting OTAA join..." EmptyString
      :: TicksMs (w_start_ticks w)
      :: poll_trace w 0 (S n)
      ++ [HasJoined false; HasJoined false; Print "timeout, failed!" nl;
          Rgbled LED_RED; Sleep 1; Rgbled LED_OFF; Sleep 1])%list).
Proof.
  intros Heui Hkey Hpos Hnever Hafter Hrange Hbelow Hreach Hfuel.
  rewrite <- (timer_after_exact w n (Hrange n (Nat.le_refl n))).
  apply otaa_join_timeout_run; try assumption.
  - intros j Hj. rewrite (timer_after_exact w j (Hrange j ltac:(lia))).
    apply Z.div_lt_upper_bound; [lia|]. apply Hbelow. exact Hj.
  - rewrite (timer_after_exact w n (Hrange n (Nat.le_refl n))).
    apply Z.div_le_lower_bound; [lia|]. exact Hreach.
Qed.

(** * The claims *)

(** C1 (code defect).  The counter starts at 0 and grows by one per cycle,
    and cycles 1 to 255 send the counter as their one byte; but the payload
    does not wrap: on a board that stays joined, cycle 256 raises
    [ValueError] at [bytes([counter])], nothing catches it, and the run
    ends having sent the payloads 1, ..., 255 and never a 0. *)
Theorem counter_payload_overflows_at_256 :
  let r := script reference_config pycom_LoRa steady_world 300 unbound in
  result_of r = Raised ValueError
  /\ counter (globals_of r) = Some 256
  /\ map (map byte_val) (uplinks (trace_of r))
     = map (fun n => [Z.of_nat n]) (seq 1 255).
Proof. vm_compute. repeat split. Qed.

(** C2 (code defect).  The handler does raise: called with the
    receive-complete bit alone it reads the local [msg] before anything was
    assigned to it, whatever the configuration and the statistics. *)
Theorem event_handler_raises_on_rx_only (cfg : Config) (stats : Stats)
    (g : Globals) :
  event_handler cfg pycom_LoRa
    {| pending_events := RX_PACKET_EVENT pycom_LoRa; last_stats := stats |} g
  = (Raised NameError, g, [LoraEvents 1; LoraStats]).
Proof. apply event_handler_no_tx; [discriminate | reflexivity]. Qed.

(** C3.  In a cycle, the line printed after the receive attempt is
    [ACK received.] exactly when a callback set the flag since it was
    cleared and the packet is empty, [Received downlink packet on port ..]
    with port and payload exactly when the packet is not empty, and
    [No downlink packet received.] in the remaining case. *)
Theorem cycle_outcome_classification (cfg : Config) (LoRa : LoRaClass)
    (ce : CycleEnv) (g : Globals) (c : Z) :
  counter g = Some c ->
  0 <= c < 255 ->
  let flag := existsb (sets_flag cfg LoRa) (ce_during_send ce) in
  let rx_pkt := fst (ce_recv ce) in
  let rx_port := snd (ce_recv ce) in
  exists payload o,
    cycle cfg LoRa ce g
    = (Done tt,
       after_callbacks cfg LoRa (ce_during_idle ce) (at_classify cfg LoRa ce c),
       (Print (sending_text cfg (c + 1)) EmptyString
        :: send_trace cfg LoRa ce payload (entered c)
        ++ send_epilogue (ce_send ce)
        ++ Setblocking false
        :: Recvfrom 64 rx_pkt rx_port
        :: Print (match o with
                  | Acked => "ACK received."
                  | DownlinkReceived =>
                      "Received downlink packet on port " ++ str_int rx_port
                      ++ ": " ++ repr_bytes rx_pkt
                  | NoDownlink => "No downlink packet received."
                  end) nl
        :: idle_trace cfg LoRa ce (at_classify cfg LoRa ce c))%list)
    /\ RX_EVENT (at_classify cfg LoRa ce c) = Some flag
    /\ (o = Acked <-> flag = true /\ rx_pkt = [])
    /\ (o = DownlinkReceived <-> rx_pkt <> [])
    /\ (o = NoDownlink <-> flag = false /\ rx_pkt = []).
Proof.
  intros Hc Hrange flag rx_pkt rx_port.
  destruct (bytes_of_int_in_range (c + 1)) as [b [Hb _]]; [lia|].
  exists [b], (classify flag rx_pkt).
  split; [exact (cycle_run cfg LoRa ce g c [b] Hc Hb)|].
  split.
  { unfold at_classify. rewrite after_callbacks_flag. fold flag.
    destruct flag; reflexivity. }
  unfold classify.
  destruct flag, rx_pkt as [|x r]; cbn; repeat split;
    intros; try congruence; try tauto;
    match goal with
    | H : _ /\ _ |- _ => destruct H; congruence
    | _ => idtac
    end.
Qed.

Lemma cycle_outcome_classification_witness :
  counter first_globals = Some 0
  /\ 0 <= 0 < 255
  /\ printed (trace_of (cycle reference_config pycom_LoRa downlink_cycle
                          first_globals))
     = ["Sending uplink packet 1 with SF10 asking for ACK...";
        "LoRa stats: TX[sf=10, airtime=330ms, count=7, retries=0] RX[sf=7, rssi=-57dBm, snr=6.0dB]";
        "OK.";
        "Received downlink packet on port 2: b'\x01A'";
        "Waiting 30 seconds..."].
Proof.
  split; [reflexivity|]. split; [lia|].
  destruct (cycle_outcome_classification reference_config pycom_LoRa
              downlink_cycle first_globals 0 eq_refl ltac:(lia))
    as (payload & o & Hrun & _ & _ & Hdown & _).
  assert (Ho : o = DownlinkReceived) by (apply Hdown; discriminate).
  subst o. rewrite Hrun. reflexivity.
Defined.

(** C4.  Called with the transmit-complete bit alone, the handler prints
    one line: with [LORA_ACK] off it is the TX statistics (spreading factor,
    airtime, send count, retries) and the LED is left alone; with
    [LORA_ACK] on it is the TX statistics followed by the RX statistics
    (spreading factor, RSSI, SNR), after one pink double flash. *)
Theorem tx_only_report (cfg : Config) (LoRa : LoRaClass) (stats : Stats)
    (g : Globals) :
  distinct_bits LoRa ->
  event_handler cfg LoRa
    {| pending_events := TX_PACKET_EVENT LoRa; last_stats := stats |} g
  = if LORA_ACK cfg
    then (Done tt, mark_rx g,
          [LoraEvents (TX_PACKET_EVENT LoRa); LoraStats;
           Rgbled LED_PINK; Sleep (1 # 10); Rgbled LED_OFF; Sleep (3 # 10);
           Rgbled LED_PINK; Sleep (1 # 10); Rgbled LED_OFF; Sleep (3 # 10);
           Print (("LoRa stats: TX[sf=" ++ str_int (12 - sftx stats)
                   ++ ", airtime=" ++ str_int (tx_time_on_air stats)
                   ++ "ms, count=" ++ str_int (tx_counter stats)
                   ++ ", retries=" ++ str_int (tx_trials stats) ++ "]")
                  ++ (" RX[sf=" ++ str_int (12 - sfrx stats)
                      ++ ", rssi=" ++ str_int (rssi stats)
                      ++ "dBm, snr=" ++ snr stats ++ "dB]")) nl])
    else (Done tt, g,
          [LoraEvents (TX_PACKET_EVENT LoRa); LoraStats;
           Print ("LoRa stats: TX[sf=" ++ str_int (12 - sftx stats)
                  ++ ", airtime=" ++ str_int (tx_time_on_air stats)
                  ++ "ms, count=" ++ str_int (tx_counter stats)
                  ++ ", retries=" ++ str_int (tx_trials stats) ++ "]") nl]).
Proof.
  intros (Htx & _ & _ & Hrx & Hfail & _).
  assert (Hbit : tx_bit LoRa (TX_PACKET_EVENT LoRa) = true).
  { unfold tx_bit, truthy. rewrite Z.land_diag.
    apply Z.eqb_neq in Htx. rewrite Htx. reflexivity. }
  rewrite (event_handler_tx cfg LoRa
             {| pending_events := TX_PACKET_EVENT LoRa; last_stats := stats |}
             g Hbit).
  cbn [pending_events last_stats]. cbv zeta.
  unfold rx_bit, failed_bit. rewrite Hrx, Hfail. cbn [truthy Z.eqb negb].
  rewrite orb_false_r.
  destruct (LORA_ACK cfg); [reflexivity|].
  rewrite append_empty_r. reflexivity.
Qed.

Lemma tx_only_report_witness :
  distinct_bits pycom_LoRa
  /\ event_handler reference_config pycom_LoRa tx_done unbound
     = (Done tt, {| counter := None; RX_EVENT := Some true |},
        [LoraEvents 2; LoraStats;
         Rgbled 0xFF0088; Sleep (1 # 10); Rgbled 0; Sleep (3 # 10);
         Rgbled 0xFF0088; Sleep (1 # 10); Rgbled 0; Sleep (3 # 10);
         Print "LoRa stats: TX[sf=10, airtime=330ms, count=7, retries=0] RX[sf=7, rssi=-57dBm, snr=6.0dB]" nl])
  /\ event_handler (with_ack reference_config false) pycom_LoRa tx_done unbound
     = (Done tt, unbound,
        [LoraEvents 2; LoraStats;
         Print "LoRa stats: TX[sf=10, airtime=330ms, count=7, retries=0]" nl]).
Proof.
  assert (H : distinct_bits pycom_LoRa).
  { unfold distinct_bits. cbn. repeat split; discriminate. }
  split; [exact H|]. unfold tx_done. split.
  - rewrite (tx_only_report reference_config pycom_LoRa sample_stats unbound H).
    reflexivity.
  - rewrite (tx_only_report (with_ack reference_config false) pycom_LoRa
               sample_stats unbound H).
    reflexivity.
Defined.

(** C5.  With no event pending the handler returns at once: apart from the
    call that read the event bits there is no effect at all (nothing
    printed, the LED untouched, the statistics not read), and the globals
    are as before. *)
Theorem event_handler_no_events_is_noop (cfg : Config) (LoRa : LoRaClass)
    (stats : Stats) (g : Globals) :
  event_handler cfg LoRa {| pending_events := 0; last_stats := stats |} g
  = (Done tt, g, [LoraEvents 0]).
Proof. apply event_handler_idle. reflexivity. Qed.

(** C9.  When the transmit-complete bit is set the handler returns
    normally, and it assigns [RX_EVENT = True] exactly when [LORA_ACK] is
    on or the receive-complete bit is set too; in that case, and only
    then, it flashes the LED pink twice. *)
Theorem rx_event_set_iff_ack_or_rx (cfg : Config) (LoRa : LoRaClass)
    (lora : LoRaObj) (g : Globals) :
  tx_bit LoRa (pending_events lora) = true ->
  let r := event_handler cfg LoRa lora g in
  let rx := LORA_ACK cfg || rx_bit LoRa (pending_events lora) in
  result_of r = Done tt
  /\ globals_of r = (if rx then mark_rx g else g)
  /\ count_led LED_PINK (trace_of r) = (if rx then 2%nat else 0%nat).
Proof.
  intros Htx. cbv zeta. rewrite (event_handler_tx cfg LoRa lora g Htx).
  cbv zeta. cbn [result_of globals_of trace_of fst snd].
  split; [reflexivity|]. split; [reflexivity|].
  destruct (LORA_ACK cfg || rx_bit LoRa (pending_events lora));
    destruct (failed_bit LoRa (pending_events lora)); reflexivity.
Qed.

Lemma rx_event_set_iff_ack_or_rx_witness :
  tx_bit pycom_LoRa (pending_events tx_done) = true
  /\ RX_EVENT (globals_of (event_handler reference_config pycom_LoRa tx_done
                             first_globals)) = Some true.
Proof.
  split; [reflexivity|].
  destruct (rx_event_set_iff_ack_or_rx reference_config pycom_LoRa tx_done
              first_globals eq_refl) as (_ & Hg & _).
  rewrite Hg. reflexivity.
Defined.

(** C6.  In OTAA mode, when [has_joined()] never answers true, the join
    loop ends with the first pass [n] whose wall-clock delta
    [ticks_diff(ticks_ms(), start_join)] has reached the timeout (in
    milliseconds, 1000 times [OTAA_JOIN_TIMEOUT]) and not before; the
    elapsed-seconds counter is then that delta divided by 1000; the script
    prints the failure line and flashes red, and [lora.join] has been
    called once only.  The deltas are taken below 2^20 ms, where the float
    division of the script is exact. *)
Theorem otaa_join_times_out (cfg : Config) (w : World) (n fuel : nat)
    (app_eui app_key : bytes) (g : Globals) :
  unhexlify (OTAA_APP_EUI cfg) = Some app_eui ->
  unhexlify (OTAA_APP_KEY cfg) = Some app_key ->
  0 < OTAA_JOIN_TIMEOUT cfg ->
  (forall i, w_poll_joined w i = false) ->
  w_joined_after_poll w = false ->
  (forall j, (j <= n)%nat -> 0 <= ticks_delta w j < 2 ^ 20) ->
  (forall j, (j < n)%nat -> ticks_delta w j < 1000 * OTAA_JOIN_TIMEOUT cfg) ->
  1000 * OTAA_JOIN_TIMEOUT cfg <= ticks_delta w n ->
  (n + 1 < fuel)%nat ->
  otaa_join cfg w fuel g
  = (Done (ticks_delta w n / 1000), g,
     (JoinOTAA app_eui app_key 0 (LORA_DR_JOIN cfg)
      :: Print "Starting OTAA join..." EmptyString
      :: TicksMs (w_start_ticks w)
      :: poll_trace w 0 (S n)
      ++ [HasJoined false; HasJoined false; Print "timeout, failed!" nl;
          Rgbled LED_RED; Sleep 1; Rgbled LED_OFF; Sleep 1])%list).
Proof. exact (otaa_join_deadline_run cfg w n fuel app_eui app_key g). Qed.

Lemma otaa_join_times_out_witness :
  (forall i, w_poll_joined slow_world i = false)
  /\ result_of (otaa_join reference_config slow_world 10 unbound) = Done 35
  /\ printed (trace_of (otaa_join reference_config slow_world 10 unbound))
     = ["Starting OTAA join..."; "."; "."; "."; "."; "."; ".";
        "timeout, failed!"].
Proof.
  split; [reflexivity|].
  assert (Hdelta : forall j, ticks_delta slow_world j = 7000 * Z.of_nat j + 3).
  { intros j. unfold ticks_delta.
    cbn [slow_world w_ticks_diff w_poll_ticks w_start_ticks]. lia. }
  assert (Hrange : forall j, (j <= 5)%nat ->
            0 <= ticks_delta slow_world j < 2 ^ 20).
  { intros j Hj. rewrite Hdelta. change (2 ^ 20) with 1048576. lia. }
  assert (Hbelow : forall j, (j < 5)%nat ->
            ticks_delta slow_world j
            < 1000 * OTAA_JOIN_TIMEOUT reference_config).
  { intros j Hj. rewrite Hdelta. cbn [reference_config OTAA_JOIN_TIMEOUT]. lia. }
  rewrite (otaa_join_times_out reference_config slow_world 5 10 _ _ unbound
             eq_refl eq_refl eq_refl (fun _ => eq_refl) eq_refl Hrange Hbelow
             ltac:(vm_compute; discriminate) ltac:(lia)).
  split; reflexivity.
Defined.

(** C7.  When [has_joined()] is false at the first test of the main loop,
    the body of the loop is never run: the loop is left with the globals
    as they were, and over the whole script no packet is sent and the
    counter is never other than 0 (or not yet bound, if the script stopped
    before line 123). *)
Theorem failed_join_sends_nothing (cfg : Config) (LoRa : LoRaClass)
    (w : World) (fuel : nat) :
  w_guard w 0 = false ->
  (forall g, main_loop cfg LoRa w (S fuel) 0 g = (Done tt, g, [HasJoined false]))
  /\ uplinks (trace_of (script cfg LoRa w fuel unbound)) = []
  /\ (counter (globals_of (script cfg LoRa w fuel unbound)) = None
      \/ counter (globals_of (script cfg LoRa w fuel unbound)) = Some 0).
Proof.
  intros Hguard. split.
  - intros g. apply main_loop_stops. exact Hguard.
  - exact (script_calm cfg LoRa w fuel unbound Hguard).
Qed.

Lemma failed_join_sends_nothing_witness :
  w_guard lonely_world 0 = false
  /\ uplinks (trace_of (script reference_config pycom_LoRa lonely_world 40
                          unbound)) = [].
Proof.
  split; [reflexivity|].
  exact (proj1 (proj2 (failed_join_sends_nothing reference_config pycom_LoRa
                         lonely_world 40 eq_refl))).
Defined.

(** C8.  A send that times out does not end the cycle: after the send the
    LED flashes red twice for a second each, [Timeout!] is printed, and the
    cycle goes on with the non-blocking receive and everything after it,
    the same effects and the same globals as when the send succeeds. *)
Theorem send_timeout_continues (cfg : Config) (LoRa : LoRaClass)
    (ce : CycleEnv) (g : Globals) (c : Z) :
  counter g = Some c ->
  0 <= c < 255 ->
  ce_send ce = SendTimedOut ->
  exists payload g',
    cycle cfg LoRa ce g
    = (Done tt, g',
       (Print (sending_text cfg (c + 1)) EmptyString
        :: send_trace cfg LoRa ce payload (entered c)
        ++ [Rgbled LED_RED; Sleep 1; Rgbled LED_OFF; Sleep 1;
            Rgbled LED_RED; Sleep 1; Rgbled LED_OFF; Sleep 1;
            Print "Timeout!" nl]
        ++ receive_trace cfg LoRa ce c)%list)
    /\ cycle cfg LoRa (with_send ce SendOk) g
       = (Done tt, g',
          (Print (sending_text cfg (c + 1)) EmptyString
           :: send_trace cfg LoRa (with_send ce SendOk) payload (entered c)
           ++ [Print "OK." nl]
           ++ receive_trace cfg LoRa ce c)%list)
    /\ exists rx_pkt rx_port line rest,
         receive_trace cfg LoRa ce c
         = Setblocking false :: Recvfrom 64 rx_pkt rx_port
           :: Print line nl :: rest.
Proof.
  intros Hc Hrange Htimeout.
  destruct (bytes_of_int_in_range (c + 1)) as [b [Hb _]]; [lia|].
  exists [b]. eexists. split; [|split].
  - rewrite (cycle_run cfg LoRa ce g c [b] Hc Hb). rewrite Htimeout.
    reflexivity.
  - rewrite (cycle_run cfg LoRa (with_send ce SendOk) g c [b] Hc Hb).
    reflexivity.
  - unfold receive_trace. repeat eexists.
Qed.

Lemma send_timeout_continues_witness :
  counter first_globals = Some 0
  /\ ce_send stalled_cycle = SendTimedOut
  /\ result_of (cycle reference_config pycom_LoRa stalled_cycle first_globals)
     = Done tt.
Proof.
  split; [reflexivity|]. split; [reflexivity|].
  destruct (send_timeout_continues reference_config pycom_LoRa stalled_cycle
              first_globals 0 eq_refl ltac:(lia) eq_refl)
    as (payload & g' & Hrun & _).
  rewrite Hrun. reflexivity.
Defined.

(** C10.  In OTAA mode, once the join phase is over, however it went, the
    script creates the socket, sets the data rate and the confirmed-send
    option and registers the callback; and when the main loop is left
    through its guard, at once or after some cycles, the last thing the
    script does is to set the LED to red. *)
Theorem setup_unconditional_final_red (cfg : Config) (LoRa : LoRaClass)
    (w : World) (fuel K : nat) (timer : Z) :
  LORA_OTAA cfg = true ->
  result_of (otaa_join cfg w fuel unbound) = Done timer ->
  (forall k, (k < K)%nat -> w_guard w k = true) ->
  w_guard w K = false ->
  (K <= 255)%nat ->
  (K < fuel)%nat ->
  let J := otaa_join cfg w fuel unbound in
  let L := main_loop cfg LoRa w fuel 0 (at_loop_entry (globals_of J)) in
  script cfg LoRa w fuel unbound
  = (Done tt, globals_of L,
     (preamble w
      ++ trace_of J
      ++ [SocketCreate;
          SetsockoptDR (LORA_DR cfg);
          SetsockoptConfirmed (LORA_ACK cfg);
          LoraCallback (Z.lor (RX_PACKET_EVENT LoRa) (TX_PACKET_EVENT LoRa))]
      ++ trace_of L
      ++ [Rgbled LED_RED])%list).
Proof.
  intros Hmode Hjoin Htrue Hfalse HK Hfuel J L.
  destruct (main_loop_exits cfg LoRa w K fuel 0 0 (at_loop_entry (globals_of J))
              eq_refl ltac:(lia) ltac:(lia) Htrue Hfalse Hfuel) as [HL _].
  fold L in HL.
  apply (script_otaa_run cfg LoRa w fuel unbound timer (globals_of J) (trace_of J)
           (globals_of L) (trace_of L) Hmode).
  - rewrite <- Hjoin. apply run_eta.
  - rewrite <- HL. apply run_eta.
Qed.

Lemma setup_unconditional_final_red_witness :
  result_of (otaa_join reference_config lonely_world 40 unbound) = Done 30
  /\ w_guard lonely_world 0 = false
  /\ result_of (script reference_config pycom_LoRa lonely_world 40 unbound)
     = Done tt.
Proof.
  assert (Hjoin : result_of (otaa_join reference_config lonely_world 40 unbound)
                  = Done 30) by (vm_compute; reflexivity).
  split; [exact Hjoin|]. split; [reflexivity|].
  rewrite (setup_unconditional_final_red reference_config pycom_LoRa
             lonely_world 40 0 30 eq_refl Hjoin
             (fun k (H : (k < 0)%nat) => match Nat.nlt_0_r k H with end)
             eq_refl ltac:(lia) ltac:(lia)).
  reflexivity.
Defined.

(** * Further properties of the script *)

(** ** Observations on traces *)

Lemma slept_app t1 t2 : (slept (t1 ++ t2) == slept t1 + slept t2)%Q.
Proof.
  induction t1 as [|e t1 IH]; cbn [app slept].
  - ring.
  - destruct e; try exact IH. rewrite IH. ring.
Qed.

Lemma slept_flash color on pause n :
  (slept (flash_trace color on pause n)
   == inject_Z (Z.of_nat n) * (on + pause))%Q.
Proof.
  induction n as [|n IH]; cbn [flash_trace slept].
  - cbn. ring.
  - rewrite IH, Nat2Z.inj_succ. unfold Z.succ. rewrite inject_Z_plus. ring.
Qed.

Lemma last_led_app t1 t2 :
  last_led (t1 ++ t2)
  = match last_led t2 with
    | Some c => Some c
    | None => last_led t1
    end.
Proof.
  induction t1 as [|e t1 IH]; cbn [app last_led].
  - destruct (last_led t2); reflexivity.
  - destruct e; try exact IH. rewrite IH.
    destruct (last_led t2); reflexivity.
Qed.

Lemma last_led_flash color on pause n :
  last_led (flash_trace color on pause (S n)) = Some LED_OFF.
Proof.
  induction n as [|n IH]; [reflexivity|].
  change (flash_trace color on pause (S (S n)))
    with (Rgbled color :: Sleep on :: Rgbled LED_OFF :: Sleep pause
          :: flash_trace color on pause (S n)).
  cbn [last_led]. rewrite IH. reflexivity.
Qed.

Lemma length_flash color on pause n :
  List.length (flash_trace color on pause n) = (4 * n)%nat.
Proof.
  induction n as [|n IH]; [reflexivity|].
  cbn [flash_trace List.length]. rewrite IH. lia.
Qed.

Lemma printed_app t1 t2 : printed (t1 ++ t2) = (printed t1 ++ printed t2)%list.
Proof.
  induction t1 as [|e t1 IH]; [reflexivity|].
  destruct e; cbn [printed app]; rewrite IH; reflexivity.
Qed.

Lemma printed_flash color on pause n : printed (flash_trace color on pause n) = [].
Proof. induction n as [|n IH]; [reflexivity | exact IH]. Qed.

(** ** [flash_led] *)

(** X1.  [flash_led] keeps its caller waiting for [repeat] times
    [on + pause] seconds. *)
Theorem flash_led_duration (color : Z) (on pause : Q) (repeat : nat)
    (g : Globals) :
  (slept (trace_of (flash_led color on pause repeat g))
   == inject_Z (Z.of_nat repeat) * (on + pause))%Q.
Proof. rewrite flash_led_run. apply slept_flash. Qed.

(** X2.  [flash_led] always returns, leaves the globals alone, makes four
    calls per repetition, and leaves the LED off whenever it flashed at
    all; with [repeat = 0] it does nothing. *)
Theorem flash_led_leaves_led_off (color : Z) (on pause : Q) (repeat : nat)
    (g : Globals) :
  result_of (flash_led color on pause repeat g) = Done tt
  /\ globals_of (flash_led color on pause repeat g) = g
  /\ List.length (trace_of (flash_led color on pause repeat g))
     = (4 * repeat)%nat
  /\ last_led (trace_of (flash_led color on pause repeat g))
     = match repeat with
       | O => None
       | S _ => Some LED_OFF
       end.
Proof.
  rewrite flash_led_run. cbn [result_of globals_of trace_of fst snd].
  repeat split.
  - apply length_flash.
  - destruct repeat as [|n]; [reflexivity | apply last_led_flash].
Qed.

(** ** [event_handler] *)

(** X3.  The handler returns normally exactly when no event is pending or
    the transmit-complete bit is set; in every other case it raises
    [NameError] right after reading the statistics, with nothing printed,
    the LED untouched and the globals as they were. *)
Theorem event_handler_returns_iff (cfg : Config) (LoRa : LoRaClass)
    (lora : LoRaObj) (g : Globals) :
  (result_of (event_handler cfg LoRa lora g) = Done tt
   <-> pending_events lora = 0 \/ tx_bit LoRa (pending_events lora) = true)
  /\ (result_of (event_handler cfg LoRa lora g) <> Done tt ->
      event_handler cfg LoRa lora g
      = (Raised NameError, g, [LoraEvents (pending_events lora); LoraStats])).
Proof.
  destruct (tx_bit LoRa (pending_events lora)) eqn:Htx.
  - rewrite (event_handler_tx cfg LoRa lora g Htx). cbv zeta.
    cbn [result_of fst]. split; [tauto | congruence].
  - destruct (Z.eq_dec (pending_events lora) 0) as [H0|Hnz].
    + rewrite (event_handler_idle cfg LoRa lora g H0).
      cbn [result_of fst]. split; [tauto | congruence].
    + rewrite (event_handler_no_tx cfg LoRa lora g Hnz Htx).
      cbn [result_of fst]. split; [|reflexivity].
      split; [discriminate | intros [H|H]; congruence].
Qed.

(** X4.  Whatever the events, the handler never touches [counter] and
    never clears [RX_EVENT]: the flag is as before or [True]. *)
Theorem event_handler_keeps_globals (cfg : Config) (LoRa : LoRaClass)
    (lora : LoRaObj) (g : Globals) :
  counter (globals_of (event_handler cfg LoRa lora g)) = counter g
  /\ (RX_EVENT (globals_of (event_handler cfg LoRa lora g)) = RX_EVENT g
      \/ RX_EVENT (globals_of (event_handler cfg LoRa lora g)) = Some true).
Proof.
  destruct (tx_bit LoRa (pending_events lora)) eqn:Htx.
  - rewrite (event_handler_tx cfg LoRa lora g Htx). cbv zeta.
    cbn [globals_of fst snd].
    destruct (LORA_ACK cfg || rx_bit LoRa (pending_events lora));
      cbn [mark_rx counter RX_EVENT]; auto.
  - destruct (Z.eq_dec (pending_events lora) 0) as [H0|Hnz].
    + rewrite (event_handler_idle cfg LoRa lora g H0). auto.
    + rewrite (event_handler_no_tx cfg LoRa lora g Hnz Htx). auto.
Qed.

(** X5.  With the transmit-complete bit set the handler prints the
    statistics line, its RX half present exactly when [LORA_ACK] is on or
    the receive bit is set, and after it the warning with the number of
    attempts exactly when the transmit-failed bit is set as well. *)
Theorem event_handler_lines (cfg : Config) (LoRa : LoRaClass)
    (lora : LoRaObj) (g : Globals) :
  tx_bit LoRa (pending_events lora) = true ->
  printed (trace_of (event_handler cfg LoRa lora g))
  = (("LoRa stats: TX[sf=" ++ str_int (12 - sftx (last_stats lora))
      ++ ", airtime=" ++ str_int (tx_time_on_air (last_stats lora))
      ++ "ms, count=" ++ str_int (tx_counter (last_stats lora))
      ++ ", retries=" ++ str_int (tx_trials (last_stats lora)) ++ "]")
     ++ (if LORA_ACK cfg || rx_bit LoRa (pending_events lora)
         then " RX[sf=" ++ str_int (12 - sfrx (last_stats lora))
              ++ ", rssi=" ++ str_int (rssi (last_stats lora))
              ++ "dBm, snr=" ++ snr (last_stats lora) ++ "dB]"
         else EmptyString))
    :: (if failed_bit LoRa (pending_events lora)
        then ["Warning: no ACK after "
              ++ str_int (tx_trials (last_stats lora)) ++ " attempts"]
        else []).
Proof.
  intros Htx. rewrite (event_handler_tx cfg LoRa lora g Htx). cbv zeta.
  cbn [trace_of snd].
  destruct (LORA_ACK cfg || rx_bit LoRa (pending_events lora));
    destruct (failed_bit LoRa (pending_events lora)); reflexivity.
Qed.

Lemma event_handler_lines_witness :
  tx_bit pycom_LoRa (pending_events all_events) = true
  /\ printed (trace_of (event_handler (with_ack reference_config false)
                          pycom_LoRa all_events unbound))
     = ["LoRa stats: TX[sf=10, airtime=330ms, count=7, retries=0] RX[sf=7, rssi=-57dBm, snr=6.0dB]";
        "Warning: no ACK after 0 attempts"]
  /\ printed (trace_of (event_handler (with_ack reference_config false)
                          pycom_LoRa tx_done unbound))
     = ["LoRa stats: TX[sf=10, airtime=330ms, count=7, retries=0]"].
Proof.
  split; [reflexivity|]. split.
  - rewrite (event_handler_lines (with_ack reference_config false) pycom_LoRa
               all_events unbound eq_refl).
    reflexivity.
  - rewrite (event_handler_lines (with_ack reference_config false) pycom_LoRa
               tx_done unbound eq_refl).
    reflexivity.
Defined.

(** ** The join *)

(** The join loop when the network answers at the [n]-th test after
    [i]. *)
Lemma join_poll_joined (cfg : Config) (w : World) (n : nat) :
  forall fuel i otaa_timer g,
    (forall j, (j < n)%nat -> w_poll_joined w (i + j) = false) ->
    w_poll_joined w (i + n) = true ->
    ((0 < n)%nat -> otaa_timer < OTAA_JOIN_TIMEOUT cfg) ->
    (forall j, (S j < n)%nat -> timer_after w (i + j) < OTAA_JOIN_TIMEOUT cfg) ->
    (n < fuel)%nat ->
    exists timer,
      join_poll cfg w fuel i (w_start_ticks w) otaa_timer g
      = (Done timer, g, (poll_trace w i n ++ [HasJoined true])%list).
Proof.
  induction n as [|n IH]; intros fuel i otaa_timer g Hno Hyes Hlt Hbelow Hfuel;
    (destruct fuel as [|fuel]; [lia|]).
  - rewrite Nat.add_0_r in Hyes. exists otaa_timer.
    rewrite join_poll_exit by (rewrite Hyes; reflexivity).
    rewrite Hyes. reflexivity.
  - assert (Hi : w_poll_joined w i = false).
    { specialize (Hno 0%nat). rewrite Nat.add_0_r in Hno. apply Hno. lia. }
    destruct (IH fuel (S i) (timer_after w i) g) as [timer Hrest].
    + intros j Hj. replace (S i + j)%nat with (i + S j)%nat by lia.
      apply Hno. lia.
    + replace (S i + n)%nat with (i + S n)%nat by lia. exact Hyes.
    + intros Hn. specialize (Hbelow 0%nat). rewrite Nat.add_0_r in Hbelow.
      apply Hbelow. lia.
    + intros j Hj. replace (S i + j)%nat with (i + S j)%nat by lia.
      apply Hbelow. lia.
    + lia.
    + exists timer.
      change (poll_trace w i (S n))
        with (poll_iteration w i ++ poll_trace w (S i) n)%list.
      rewrite <- app_assoc.
      apply join_poll_step; [exact Hi | apply Hlt; lia | exact Hrest].
Qed.

(** The first index at which a test holds, below one at which it does. *)
Lemma first_true (f : nat -> bool) (N : nat) :
  f N = true ->
  exists n, (n <= N)%nat /\ f n = true /\ forall j, (j < n)%nat -> f j = false.
Proof.
  induction N as [N IH] using lt_wf_ind. intros HN.
  destruct (existsb f (seq 0 N)) eqn:Hex.
  - apply existsb_exists in Hex. destruct Hex as [m [Hin Hm]].
    apply in_seq in Hin.
    destruct (IH m ltac:(lia) Hm) as [n [Hle [Hn Hmin]]].
    exists n. repeat split; [lia | exact Hn | exact Hmin].
  - exists N. repeat split; [lia | exact HN |].
    intros j Hj. destruct (f j) eqn:Hfj; [|reflexivity].
    assert (Hc : existsb f (seq 0 N) = true).
    { apply existsb_exists. exists j. split; [apply in_seq; lia | exact Hfj]. }
    congruence.
Qed.

(** X6.  In OTAA mode, when [has_joined()] first answers true at the
    [n]-th test of the loop, before the timer has run out, the loop makes
    exactly [n] passes, and the script prints [OK.] and gives one long
    blue flash. *)
Theorem otaa_join_succeeds (cfg : Config) (w : World) (n fuel : nat)
    (app_eui app_key : bytes) (g : Globals) :
  unhexlify (OTAA_APP_EUI cfg) = Some app_eui ->
  unhexlify (OTAA_APP_KEY cfg) = Some app_key ->
  0 < OTAA_JOIN_TIMEOUT cfg ->
  (forall j, (j < n)%nat -> w_poll_joined w j = false) ->
  w_poll_joined w n = true ->
  w_joined_after_poll w = true ->
  (forall j, (S j < n)%nat -> timer_after w j < OTAA_JOIN_TIMEOUT cfg) ->
  (n < fuel)%nat ->
  exists timer,
    otaa_join cfg w fuel g
    = (Done timer, g,
       (JoinOTAA app_eui app_key 0 (LORA_DR_JOIN cfg)
        :: Print "Starting OTAA join..." EmptyString
        :: TicksMs (w_start_ticks w)
        :: poll_trace w 0 n
        ++ [HasJoined true; HasJoined true; Print "OK." nl;
            Rgbled LED_BLUE; Sleep 1; Rgbled LED_OFF; Sleep 1])%list).
Proof.
  intros Heui Hkey Hpos Hno Hyes Hafter Hbelow Hfuel.
  destruct (join_poll_joined cfg w n fuel 0 0 g Hno Hyes (fun _ => Hpos)
              Hbelow Hfuel) as [timer Hpoll].
  exists timer.
  unfold otaa_join, unhexlify_m. rewrite Heui, Hkey, Hafter.
  etransitivity.
  { run_prim. run_prim. run_prim. run_prim. run_prim.
    run_with ltac:(exact Hpoll).
    run_prim.
    run_with ltac:(run_prim; apply flash_led_run).
    reflexivity. }
  cbn [app flash_trace]. rewrite <- app_assoc. reflexivity.
Qed.

Lemma otaa_join_succeeds_witness :
  w_poll_joined brief_world 3 = true
  /\ exists timer,
       result_of (otaa_join reference_config brief_world 10 unbound)
       = Done timer.
Proof.
  split; [reflexivity|].
  assert (Hno : forall j, (j < 3)%nat -> w_poll_joined brief_world j = false).
  { intros j Hj. destruct j as [|[|[|j]]]; [reflexivity..|lia]. }
  assert (Hbelow : forall j, (S j < 3)%nat ->
            timer_after brief_world j < OTAA_JOIN_TIMEOUT reference_config).
  { intros j Hj. destruct j as [|[|j]]; [reflexivity..|lia]. }
  destruct (otaa_join_succeeds reference_config brief_world 3 10 _ _ unbound
              eq_refl eq_refl eq_refl Hno eq_refl eq_refl Hbelow ltac:(lia))
    as [timer Hrun].
  exists timer. rewrite Hrun. reflexivity.
Defined.

(** X7.  In OTAA mode, on a clock that has moved on by a second at least
    with every pass of the loop (each pass sleeps that long) and stays
    below 2^20 ms while the loop runs, a board that never joins is given
    up on after [OTAA_JOIN_TIMEOUT + 1] passes at most; the elapsed-seconds
    counter is then the last delta divided by 1000, and the failure line
    and the long red flash follow. *)
Theorem otaa_join_gives_up_in_time (cfg : Config) (w : World) (fuel : nat)
    (app_eui app_key : bytes) (g : Globals) :
  unhexlify (OTAA_APP_EUI cfg) = Some app_eui ->
  unhexlify (OTAA_APP_KEY cfg) = Some app_key ->
  0 < OTAA_JOIN_TIMEOUT cfg ->
  (forall a b, w_ticks_diff w a b = a - b) ->
  (forall i, w_start_ticks w + 1000 * Z.of_nat i <= w_poll_ticks w i) ->
  (forall i, Z.of_nat i <= OTAA_JOIN_TIMEOUT cfg ->
             w_poll_ticks w i - w_start_ticks w < 2 ^ 20) ->
  (forall i, w_poll_joined w i = false) ->
  w_joined_after_poll w = false ->
  (Z.to_nat (OTAA_JOIN_TIMEOUT cfg) + 1 < fuel)%nat ->
  exists n,
    Z.of_nat n <= OTAA_JOIN_TIMEOUT cfg
    /\ otaa_join cfg w fuel g
       = (Done ((w_poll_ticks w n - w_start_ticks w) / 1000), g,
          (JoinOTAA app_eui app_key 0 (LORA_DR_JOIN cfg)
           :: Print "Starting OTAA join..." EmptyString
           :: TicksMs (w_start_ticks w)
           :: poll_trace w 0 (S n)
           ++ [HasJoined false; HasJoined false; Print "timeout, failed!" nl;
               Rgbled LED_RED; Sleep 1; Rgbled LED_OFF; Sleep 1])%list).
Proof.
  intros Heui Hkey Hpos Hdiff Hclock Hsmall Hnever Hafter Hfuel.
  assert (Hdelta : forall i,
            ticks_delta w i = w_poll_ticks w i - w_start_ticks w).
  { intros i. unfold ticks_delta. apply Hdiff. }
  set (T := OTAA_JOIN_TIMEOUT cfg) in *.
  destruct (first_true (fun j => 1000 * T <=? ticks_delta w j) (Z.to_nat T))
    as [n [Hle [Hn Hmin]]].
  { apply Z.leb_le. rewrite Hdelta. specialize (Hclock (Z.to_nat T)). lia. }
  exists n. split; [lia|].
  rewrite <- Hdelta.
  apply otaa_join_deadline_run; try assumption.
  - intros j Hj. rewrite Hdelta. specialize (Hclock j).
    specialize (Hsmall j ltac:(lia)). lia.
  - intros j Hj. specialize (Hmin j Hj). apply Z.leb_gt in Hmin. exact Hmin.
  - apply Z.leb_le. exact Hn.
  - lia.
Qed.

Lemma otaa_join_gives_up_in_time_witness :
  (forall i, w_start_ticks slow_world + 1000 * Z.of_nat i
             <= w_poll_ticks slow_world i)
  /\ exists n,
       Z.of_nat n <= 30
       /\ result_of (otaa_join reference_config slow_world 40 unbound)
          = Done ((w_poll_ticks slow_world n - w_start_ticks slow_world) / 1000)
       /\ result_of (otaa_join reference_config slow_world 40 unbound)
          = Done 35.
Proof.
  assert (Hclock : forall i, w_start_ticks slow_world + 1000 * Z.of_nat i
                             <= w_poll_ticks slow_world i).
  { intros i. cbn [slow_world w_start_ticks w_poll_ticks]. lia. }
  assert (Hsmall : forall i,
            Z.of_nat i <= OTAA_JOIN_TIMEOUT reference_config ->
            w_poll_ticks slow_world i - w_start_ticks slow_world < 2 ^ 20).
  { intros i Hi. cbn [slow_world w_start_ticks w_poll_ticks].
    cbn [reference_config OTAA_JOIN_TIMEOUT] in Hi.
    change (2 ^ 20) with 1048576. lia. }
  split; [exact Hclock|].
  destruct (otaa_join_gives_up_in_time reference_config slow_world 40 _ _
              unbound eq_refl eq_refl eq_refl (fun _ _ => eq_refl) Hclock
              Hsmall (fun _ => eq_refl) eq_refl ltac:(vm_compute; lia))
    as [n [Hn Hrun]].
  exists n. split; [exact Hn|]. split; [rewrite Hrun; reflexivity|].
  reflexivity.
Defined.

(** X8.  In OTAA mode a key that is no hex string stops the script at
    [unhexlify] with [ValueError]: only the two start-up lines have been
    printed, and neither [lora.join] nor anything after it is called. *)
Theorem script_malformed_key (cfg : Config) (LoRa : LoRaClass) (w : World)
    (fuel : nat) (g : Globals) :
  LORA_OTAA cfg = true ->
  unhexlify (OTAA_APP_EUI cfg) = None \/ unhexlify (OTAA_APP_KEY cfg) = None ->
  script cfg LoRa w fuel g = (Raised ValueError, g, preamble w).
Proof.
  intros Hmode Hbad. unfold script. rewrite Hmode.
  assert (Hjoin : otaa_join cfg w fuel g = (Raised ValueError, g, [])).
  { unfold otaa_join, unhexlify_m.
    destruct (unhexlify (OTAA_APP_EUI cfg)) as [eui|]; [|reflexivity].
    destruct Hbad as [Hbad|Hbad]; [discriminate|]. rewrite Hbad. reflexivity. }
  etransitivity.
  { run_prim. run_prim. run_prim.
    apply bind_raised. apply bind_raised. exact Hjoin. }
  unfold preamble. reflexivity.
Qed.

Lemma script_malformed_key_witness :
  unhexlify (OTAA_APP_EUI (with_app_eui reference_config "70B3D57ED002FFF"))
  = None
  /\ result_of (script (with_app_eui reference_config "70B3D57ED002FFF")
                  pycom_LoRa steady_world 10 unbound)
     = Raised ValueError.
Proof.
  split; [reflexivity|].
  rewrite (script_malformed_key (with_app_eui reference_config "70B3D57ED002FFF")
             pycom_LoRa steady_world 10 unbound eq_refl (or_introl eq_refl)).
  reflexivity.
Defined.

(** ** The main loop *)

Section MainLoopMore.

Variable cfg : Config.
Variable LoRa : LoRaClass.
Variable w : World.

(** The loop entered with a counter that no longer fits a byte. *)
Lemma main_loop_overflow_run fuel k g c :
  w_guard w k = true ->
  counter g = Some c ->
  255 <= c ->
  main_loop cfg LoRa w (S fuel) k g
  = (Raised ValueError, entered c,
     (HasJoined true
      :: Print (sending_text cfg (c + 1)) EmptyString
      :: [Setblocking true; Settimeout 10]
      ++ flash_trace LED_GREEN (1 # 10) (3 # 10) 2)%list).
Proof.
  intros Hg Hc Hbig. cbn [main_loop]. rewrite Hg.
  etransitivity.
  { run_prim. apply bind_raised.
    apply (cycle_overflow cfg LoRa _ _ _ Hc
             (bytes_of_int_out_of_range (c + 1) ltac:(lia))). }
  reflexivity.
Qed.

(** [K] cycles in a row, each with a counter that fits a byte: they send
    the next [K] counter values, and the loop goes on from there. *)
Lemma main_loop_prefix K :
  forall k c g,
    counter g = Some c ->
    0 <= c ->
    c + Z.of_nat K <= 255 ->
    (forall j, (j < K)%nat -> w_guard w (k + j) = true) ->
    exists gK tK,
      counter gK = Some (c + Z.of_nat K)
      /\ map (map byte_val) (uplinks tK)
         = map (fun n => [c + Z.of_nat n]) (seq 1 K)
      /\ forall fuel,
           main_loop cfg LoRa w (K + fuel) k g
           = (result_of (main_loop cfg LoRa w fuel (k + K) gK),
              globals_of (main_loop cfg LoRa w fuel (k + K) gK),
              (tK ++ trace_of (main_loop cfg LoRa w fuel (k + K) gK))%list).
Proof.
  induction K as [|K IH]; intros k c g Hc Hc0 Hmax Htrue.
  - exists g, []. rewrite Z.add_0_r, Nat.add_0_r.
    repeat split; [exact Hc|]. intros fuel. apply run_eta.
  - assert (Hg : w_guard w k = true).
    { specialize (Htrue 0%nat). rewrite Nat.add_0_r in Htrue.
      apply Htrue. lia. }
    destruct (bytes_of_int_in_range (c + 1)) as [b0 [Hb _]]; [lia|].
    pose proof (cycle_run cfg LoRa (w_cycle w k) g c [b0] Hc Hb) as Hcycle.
    destruct (cycle_sends_counter cfg LoRa (w_cycle w k) g c Hc ltac:(lia))
      as [b [Hup [Hval Hcnt]]].
    rewrite Z.mod_small in Hval by lia.
    assert (Hres : cycle cfg LoRa (w_cycle w k) g
                   = (Done tt, globals_of (cycle cfg LoRa (w_cycle w k) g),
                      trace_of (cycle cfg LoRa (w_cycle w k) g))).
    { rewrite Hcycle. reflexivity. }
    clear Hcycle.
    set (r := cycle cfg LoRa (w_cycle w k) g) in Hup, Hcnt, Hres |- *.
    destruct (IH (S k) (c + 1) (globals_of r) Hcnt ltac:(lia) ltac:(lia))
      as (gK & tK & HcK & HupK & Hrun).
    { intros j Hj. replace (S k + j)%nat with (k + S j)%nat by lia.
      apply Htrue. lia. }
    exists gK, (HasJoined true :: trace_of r ++ tK)%list.
    split; [rewrite HcK; f_equal; lia|]. split.
    + cbn [uplinks]. rewrite uplinks_app, map_app, Hup.
      cbn [map app seq]. rewrite Hval. f_equal.
      etransitivity; [exact HupK|].
      rewrite <- (seq_shift K 1), map_map. apply map_ext. intros n.
      f_equal. lia.
    + intros fuel.
      replace (k + S K)%nat with (S k + K)%nat by lia.
      cbn [Nat.add].
      rewrite (main_loop_step cfg LoRa w (K + fuel) k g _ _ _ _ _ Hg Hres
                 (Hrun fuel)).
      cbn [app]. rewrite <- app_assoc. reflexivity.
Qed.

End MainLoopMore.

(** The loop left through its guard after [K] cycles. *)
Lemma main_loop_leaves_after (cfg : Config) (LoRa : LoRaClass)
    (w : World) (K fuel : nat) (g : Globals) :
  counter g = Some 0 ->
  (forall k, (k < K)%nat -> w_guard w k = true) ->
  w_guard w K = false ->
  (K <= 255)%nat ->
  (K < fuel)%nat ->
  result_of (main_loop cfg LoRa w fuel 0 g) = Done tt
  /\ counter (globals_of (main_loop cfg LoRa w fuel 0 g)) = Some (Z.of_nat K)
  /\ map (map byte_val) (uplinks (trace_of (main_loop cfg LoRa w fuel 0 g)))
     = map (fun n => [Z.of_nat n]) (seq 1 K).
Proof.
  intros Hc Htrue Hfalse HK Hfuel.
  destruct (main_loop_prefix cfg LoRa w K 0 0 g Hc ltac:(lia) ltac:(lia) Htrue)
    as (gK & tK & HcK & HupK & Hrun).
  replace fuel with (K + S (fuel - K - 1))%nat by lia.
  rewrite Hrun. cbn [Nat.add].
  rewrite (main_loop_stops cfg LoRa w _ K gK Hfalse).
  cbn [result_of globals_of trace_of fst snd].
  split; [reflexivity|]. split; [exact HcK|].
  rewrite uplinks_app. cbn [uplinks]. rewrite app_nil_r. exact HupK.
Qed.

(** X9.  When the board stays joined for [K] tests of the main loop
    ([K] at most 255) and has left the network at the next one, the loop
    returns after exactly [K] cycles: the counter is [K], and the packets
    sent are the single bytes 1, 2, ..., [K], in this order. *)
Theorem main_loop_sends_in_order (cfg : Config) (LoRa : LoRaClass)
    (w : World) (K fuel : nat) (g : Globals) :
  counter g = Some 0 ->
  (forall k, (k < K)%nat -> w_guard w k = true) ->
  w_guard w K = false ->
  (K <= 255)%nat ->
  (K < fuel)%nat ->
  result_of (main_loop cfg LoRa w fuel 0 g) = Done tt
  /\ counter (globals_of (main_loop cfg LoRa w fuel 0 g)) = Some (Z.of_nat K)
  /\ map (map byte_val) (uplinks (trace_of (main_loop cfg LoRa w fuel 0 g)))
     = map (fun n => [Z.of_nat n]) (seq 1 K).
Proof. exact (main_loop_leaves_after cfg LoRa w K fuel g). Qed.

Lemma main_loop_sends_in_order_witness :
  w_guard brief_world 2 = false
  /\ map (map byte_val)
       (uplinks (trace_of (main_loop reference_config pycom_LoRa brief_world 5
                             0 first_globals)))
     = [[1]; [2]].
Proof.
  split; [reflexivity|].
  assert (Htrue : forall k, (k < 2)%nat -> w_guard brief_world k = true).
  { intros k Hk. destruct k as [|[|k]]; [reflexivity..|lia]. }
  exact (proj2 (proj2 (main_loop_sends_in_order reference_config pycom_LoRa
                         brief_world 2 5 first_globals eq_refl Htrue eq_refl
                         ltac:(lia) ltac:(lia)))).
Defined.

(** X10.  On any board that stays joined through 256 tests of the main
    loop, whatever the radio does meanwhile, the loop ends in its 256th
    cycle with an uncaught [ValueError]: the counter is 256 and the packets
    sent are the bytes 1 to 255, once each. *)
Theorem main_loop_stops_at_256 (cfg : Config) (LoRa : LoRaClass) (w : World)
    (fuel : nat) (g : Globals) :
  counter g = Some 0 ->
  (forall k, (k <= 255)%nat -> w_guard w k = true) ->
  (255 < fuel)%nat ->
  result_of (main_loop cfg LoRa w fuel 0 g) = Raised ValueError
  /\ counter (globals_of (main_loop cfg LoRa w fuel 0 g)) = Some 256
  /\ map (map byte_val) (uplinks (trace_of (main_loop cfg LoRa w fuel 0 g)))
     = map (fun n => [Z.of_nat n]) (seq 1 255).
Proof.
  intros Hc Htrue Hfuel.
  destruct (main_loop_prefix cfg LoRa w 255 0 0 g Hc ltac:(lia) ltac:(lia))
    as (gK & tK & HcK & HupK & Hrun).
  { intros j Hj. apply Htrue. lia. }
  replace fuel with (255 + S (fuel - 256))%nat by lia.
  rewrite Hrun.
  rewrite (main_loop_overflow_run cfg LoRa w _ _ gK _ (Htrue 255%nat ltac:(lia))
             HcK ltac:(lia)).
  cbn [result_of globals_of trace_of fst snd].
  split; [reflexivity|]. split; [reflexivity|].
  rewrite uplinks_app. cbn [uplinks app]. rewrite app_nil_r. exact HupK.
Qed.

Lemma main_loop_stops_at_256_witness :
  (forall k, (k <= 255)%nat -> w_guard steady_world k = true)
  /\ result_of (main_loop reference_config pycom_LoRa steady_world 300 0
                  first_globals)
     = Raised ValueError.
Proof.
  split; [reflexivity|].
  exact (proj1 (main_loop_stops_at_256 reference_config pycom_LoRa steady_world
                  300 first_globals eq_refl (fun _ _ => eq_refl) ltac:(lia))).
Defined.

(** ** One cycle *)

(** X11.  A cycle does not depend on the [RX_EVENT] left behind by what
    came before: from two states with the same counter it has the same
    outcome, the same effects and the same final globals. *)
Theorem cycle_ignores_stale_flag (cfg : Config) (LoRa : LoRaClass)
    (ce : CycleEnv) (g g' : Globals) (c : Z) :
  counter g = Some c ->
  counter g' = Some c ->
  cycle cfg LoRa ce g = cycle cfg LoRa ce g'.
Proof.
  intros Hc Hc'. destruct (bytes_of_int (c + 1)) as [payload|] eqn:Hb.
  - rewrite (cycle_run cfg LoRa ce g c payload Hc Hb).
    rewrite (cycle_run cfg LoRa ce g' c payload Hc' Hb). reflexivity.
  - rewrite (cycle_overflow cfg LoRa ce g c Hc Hb).
    rewrite (cycle_overflow cfg LoRa ce g' c Hc' Hb). reflexivity.
Qed.

Lemma cycle_ignores_stale_flag_witness :
  counter first_globals = Some 0
  /\ cycle reference_config pycom_LoRa stalled_cycle first_globals
     = cycle reference_config pycom_LoRa stalled_cycle
         {| counter := Some 0; RX_EVENT := Some true |}.
Proof.
  split; [reflexivity|].
  exact (cycle_ignores_stale_flag reference_config pycom_LoRa stalled_cycle
           first_globals {| counter := Some 0; RX_EVENT := Some true |} 0
           eq_refl eq_refl).
Defined.

Lemma last_led_idle cfg LoRa ce g :
  last_led (idle_trace cfg LoRa ce g) = Some LED_OFF.
Proof.
  unfold idle_trace. cbn [last_led]. rewrite last_led_app.
  cbn [last_led]. rewrite last_led_flash. reflexivity.
Qed.

(** X12.  However a cycle ends, by reaching its last line or by the
    [ValueError] of a counter too large, the last thing it did to the LED
    was to switch it off. *)
Theorem cycle_leaves_led_off (cfg : Config) (LoRa : LoRaClass)
    (ce : CycleEnv) (g : Globals) (c : Z) :
  counter g = Some c ->
  last_led (trace_of (cycle cfg LoRa ce g)) = Some LED_OFF.
Proof.
  intros Hc. destruct (bytes_of_int (c + 1)) as [payload|] eqn:Hb.
  - rewrite (cycle_run cfg LoRa ce g c payload Hc Hb).
    cbn [trace_of snd last_led]. rewrite !last_led_app.
    unfold receive_trace. cbn [last_led]. rewrite last_led_idle. reflexivity.
  - rewrite (cycle_overflow cfg LoRa ce g c Hc Hb). reflexivity.
Qed.

Lemma cycle_leaves_led_off_witness :
  counter first_globals = Some 0
  /\ last_led (trace_of (cycle reference_config pycom_LoRa steady_cycle
                           first_globals))
     = Some 0.
Proof.
  split; [reflexivity|].
  exact (cycle_leaves_led_off reference_config pycom_LoRa steady_cycle
           first_globals 0 eq_refl).
Defined.

Lemma slept_send_trace cfg LoRa ce payload g :
  (slept (send_trace cfg LoRa ce payload g)
   == (8 # 10)
      + slept (trace_of (run_callbacks cfg LoRa (ce_during_send ce) g)))%Q.
Proof.
  unfold send_trace. rewrite !slept_app. cbn [slept].
  rewrite slept_flash. cbn [Z.of_nat Pos.of_succ_nat Pos.succ inject_Z]. ring.
Qed.

Lemma slept_idle_trace cfg LoRa ce g :
  (slept (idle_trace cfg LoRa ce g)
   == 30 + slept (trace_of (run_callbacks cfg LoRa (ce_during_idle ce) g)))%Q.
Proof.
  unfold idle_trace. cbn [slept]. rewrite slept_app. cbn [slept].
  rewrite slept_flash.
  change (inject_Z (Z.of_nat 29)) with (29 # 1)%Q. ring.
Qed.

(** X13.  A cycle that reaches its end has slept 30.8 seconds of its own
    (0.8 in the green flash, 1 waiting, 29 in the yellow flashes), 4 more
    when the send timed out, plus whatever the callbacks that landed in it
    spent flashing. *)
Theorem cycle_duration (cfg : Config) (LoRa : LoRaClass) (ce : CycleEnv)
    (g : Globals) (c : Z) :
  counter g = Some c ->
  0 <= c < 255 ->
  (slept (trace_of (cycle cfg LoRa ce g))
   == (308 # 10)
      + match ce_send ce with
        | SendOk => 0
        | SendTimedOut => 4
        end
      + slept (trace_of (run_callbacks cfg LoRa (ce_during_send ce)
                           (entered c)))
      + slept (trace_of (run_callbacks cfg LoRa (ce_during_idle ce)
                           (at_classify cfg LoRa ce c))))%Q.
Proof.
  intros Hc Hrange.
  destruct (bytes_of_int_in_range (c + 1)) as [b [Hb _]]; [lia|].
  rewrite (cycle_run cfg LoRa ce g c [b] Hc Hb).
  cbn [trace_of snd slept]. rewrite !slept_app.
  unfold receive_trace. cbn [slept].
  rewrite slept_send_trace, slept_idle_trace.
  destruct (ce_send ce); cbn [send_epilogue slept].
  - ring.
  - rewrite slept_app, slept_flash. cbn [slept].
    change (inject_Z (Z.of_nat 2)) with (2 # 1)%Q. ring.
Qed.

Lemma cycle_duration_witness :
  counter first_globals = Some 0
  /\ (slept (trace_of (cycle reference_config pycom_LoRa stalled_cycle
                         first_globals)) == 348 # 10)%Q.
Proof.
  split; [reflexivity|].
  rewrite (cycle_duration reference_config pycom_LoRa stalled_cycle
             first_globals 0 eq_refl ltac:(lia)).
  reflexivity.
Defined.

(** X14.  With [LORA_ACK] on, a cycle in which a callback with the
    transmit-complete bit lands before the receive, and the receive brings
    nothing, prints [ACK received.], whether or not a receive event ever
    occurred. *)
Theorem ack_reported_after_transmit (cfg : Config) (LoRa : LoRaClass)
    (ce : CycleEnv) (g : Globals) (c : Z) (lora : LoRaObj) :
  counter g = Some c ->
  0 <= c < 255 ->
  LORA_ACK cfg = true ->
  In lora (ce_during_send ce) ->
  tx_bit LoRa (pending_events lora) = true ->
  fst (ce_recv ce) = [] ->
  exists payload,
    cycle cfg LoRa ce g
    = (Done tt,
       after_callbacks cfg LoRa (ce_during_idle ce) (at_classify cfg LoRa ce c),
       (Print (sending_text cfg (c + 1)) EmptyString
        :: send_trace cfg LoRa ce payload (entered c)
        ++ send_epilogue (ce_send ce)
        ++ Setblocking false
        :: Recvfrom 64 [] (snd (ce_recv ce))
        :: Print "ACK received." nl
        :: idle_trace cfg LoRa ce (at_classify cfg LoRa ce c))%list).
Proof.
  intros Hc Hrange Hack Hin Htx Hrecv.
  destruct (bytes_of_int_in_range (c + 1)) as [b [Hb _]]; [lia|].
  exists [b]. rewrite (cycle_run cfg LoRa ce g c [b] Hc Hb).
  unfold receive_trace. rewrite Hrecv.
  assert (Hflag : existsb (sets_flag cfg LoRa) (ce_during_send ce) = true).
  { apply existsb_exists. exists lora. split; [exact Hin|].
    unfold sets_flag. rewrite Htx, Hack. reflexivity. }
  rewrite Hflag. reflexivity.
Qed.

Lemma ack_reported_after_transmit_witness :
  In tx_done (ce_during_send steady_cycle)
  /\ In "ACK received."
       (printed (trace_of (cycle reference_config pycom_LoRa steady_cycle
                             first_globals))).
Proof.
  split; [left; reflexivity|].
  destruct (ack_reported_after_transmit reference_config pycom_LoRa
              steady_cycle first_globals 0 tx_done eq_refl ltac:(lia) eq_refl
              (or_introl eq_refl) eq_refl eq_refl) as [payload Hrun].
  rewrite Hrun. cbn [trace_of snd printed]. rewrite !printed_app.
  cbn [printed]. apply in_cons, in_or_app. right.
  apply in_or_app. right. left. reflexivity.
Defined.

(** X15.  The flag is read before the loop waits for the callback: when
    no callback lands before the receive and the receive brings nothing,
    the cycle prints [No downlink packet received.], whatever callbacks
    land during the wait that follows. *)
Theorem late_callback_is_missed (cfg : Config) (LoRa : LoRaClass)
    (ce : CycleEnv) (g : Globals) (c : Z) :
  counter g = Some c ->
  0 <= c < 255 ->
  ce_during_send ce = [] ->
  fst (ce_recv ce) = [] ->
  exists payload,
    cycle cfg LoRa ce g
    = (Done tt,
       after_callbacks cfg LoRa (ce_during_idle ce) (entered c),
       ([Print (sending_text cfg (c + 1)) EmptyString;
         Setblocking true; Settimeout 10;
         Rgbled LED_GREEN; Sleep (1 # 10); Rgbled LED_OFF; Sleep (3 # 10);
         Rgbled LED_GREEN; Sleep (1 # 10); Rgbled LED_OFF; Sleep (3 # 10);
         Send payload (ce_send ce)]
        ++ send_epilogue (ce_send ce)
        ++ Setblocking false
        :: Recvfrom 64 [] (snd (ce_recv ce))
        :: Print "No downlink packet received." nl
        :: idle_trace cfg LoRa ce (entered c))%list).
Proof.
  intros Hc Hrange Hnone Hrecv.
  destruct (bytes_of_int_in_range (c + 1)) as [b [Hb _]]; [lia|].
  exists [b]. rewrite (cycle_run cfg LoRa ce g c [b] Hc Hb).
  unfold receive_trace, send_trace, at_classify.
  rewrite Hrecv, Hnone. reflexivity.
Qed.

Lemma late_callback_is_missed_witness :
  ce_during_send late_cycle = []
  /\ exists payload g' t,
       cycle reference_config pycom_LoRa late_cycle first_globals
       = (Done tt, g', t)
       /\ uplinks t = [payload]
       /\ RX_EVENT g' = Some true.
Proof.
  split; [reflexivity|].
  destruct (late_callback_is_missed reference_config pycom_LoRa late_cycle
              first_globals 0 eq_refl ltac:(lia) eq_refl eq_refl)
    as [payload Hrun].
  exists payload. do 2 eexists. split; [exact Hrun|].
  split; reflexivity.
Defined.

(** ** ABP mode *)

(** Lines 99-108 with well-formed keys. *)
Lemma abp_join_run (cfg : Config) (g : Globals) (b3 b2 b1 b0 : byte)
    (rest nwk_swkey app_swkey : bytes) (dev_addr : Z) :
  unhexlify (ABP_DEV_ADDR cfg) = Some (b3 :: b2 :: b1 :: b0 :: rest) ->
  unpack_be_long [b3; b2; b1; b0] = Some dev_addr ->
  unhexlify (ABP_NET_KEY cfg) = Some nwk_swkey ->
  unhexlify (ABP_APP_KEY cfg) = Some app_swkey ->
  abp_join cfg g
  = (Done tt, g,
     [Print "ABP mode with preshared keys" nl;
      JoinABP dev_addr nwk_swkey app_swkey;
      AddChannel 3 867100000 0 5;
      AddChannel 4 867300000 0 5;
      AddChannel 5 867500000 0 5;
      AddChannel 6 867700000 0 5;
      AddChannel 7 867900000 0 5]).
Proof.
  intros Haddr Hlong Hnet Happ. unfold abp_join, unhexlify_m.
  rewrite Haddr, Hnet, Happ.
  etransitivity.
  { run_prim. run_prim. cbv iota. rewrite Hlong.
    run_prim. run_prim. run_prim. reflexivity. }
  reflexivity.
Qed.

(** X16.  In ABP mode with well-formed keys the script does not wait for
    the network: it joins with the device address read as a big-endian
    signed 32-bit number, adds the channels 3 to 7, sets up the socket and
    goes to the main loop; when the loop is left through its guard the
    script ends with the LED red. *)
Theorem script_abp_run (cfg : Config) (LoRa : LoRaClass) (w : World)
    (fuel K : nat) (g : Globals) (b3 b2 b1 b0 : byte)
    (rest nwk_swkey app_swkey : bytes) (dev_addr : Z) :
  LORA_OTAA cfg = false ->
  unhexlify (ABP_DEV_ADDR cfg) = Some (b3 :: b2 :: b1 :: b0 :: rest) ->
  unpack_be_long [b3; b2; b1; b0] = Some dev_addr ->
  unhexlify (ABP_NET_KEY cfg) = Some nwk_swkey ->
  unhexlify (ABP_APP_KEY cfg) = Some app_swkey ->
  (forall k, (k < K)%nat -> w_guard w k = true) ->
  w_guard w K = false ->
  (K <= 255)%nat ->
  (K < fuel)%nat ->
  let L := main_loop cfg LoRa w fuel 0 (at_loop_entry g) in
  script cfg LoRa w fuel g
  = (Done tt, globals_of L,
     (preamble w
      ++ [Print "ABP mode with preshared keys" nl;
          JoinABP dev_addr nwk_swkey app_swkey;
          AddChannel 3 867100000 0 5;
          AddChannel 4 867300000 0 5;
          AddChannel 5 867500000 0 5;
          AddChannel 6 867700000 0 5;
          AddChannel 7 867900000 0 5]
      ++ setup_trace cfg LoRa
      ++ trace_of L
      ++ [Rgbled LED_RED])%list).
Proof.
  intros Hmode Haddr Hlong Hnet Happ Htrue Hfalse HK Hfuel L.
  destruct (main_loop_exits cfg LoRa w K fuel 0 0 (at_loop_entry g)
              eq_refl ltac:(lia) ltac:(lia) Htrue Hfalse Hfuel) as [HL _].
  fold L in HL.
  assert (HLrun : L = (Done tt, globals_of L, trace_of L)).
  { rewrite <- HL. apply run_eta. }
  unfold script. rewrite Hmode.
  etransitivity.
  { run_prim. run_prim. run_prim.
    run_with ltac:(exact (abp_join_run cfg _ _ _ _ _ _ _ _ _ Haddr Hlong Hnet Happ)).
    run_prim. run_prim.
    run_with ltac:(exact HLrun). reflexivity. }
  unfold preamble, setup_trace. cbn [app]. reflexivity.
Qed.

Lemma script_abp_run_witness :
  LORA_OTAA abp_config = false
  /\ w_guard brief_world 2 = false
  /\ result_of (script abp_config pycom_LoRa brief_world 5 unbound) = Done tt.
Proof.
  split; [reflexivity|]. split; [reflexivity|].
  assert (Htrue : forall k, (k < 2)%nat -> w_guard brief_world k = true).
  { intros k Hk. destruct k as [|[|k]]; [reflexivity..|lia]. }
  rewrite (script_abp_run abp_config pycom_LoRa brief_world 5 2 unbound
             _ _ _ _ _ _ _ _ eq_refl eq_refl eq_refl eq_refl eq_refl
             Htrue eq_refl ltac:(lia) ltac:(lia)).
  reflexivity.
Defined.

(** ** The join verdict and the main loop *)

(** X17.  The failure line of the join phase does not keep the script
    from sending: the main loop asks [has_joined()] again, and when the
    answer is then true for [K] tests the script sends the bytes 1 to [K]
    after having printed [timeout, failed!]. *)
Theorem sends_after_failed_verdict (cfg : Config) (LoRa : LoRaClass)
    (w : World) (n K fuel : nat) (app_eui app_key : bytes) :
  LORA_OTAA cfg = true ->
  unhexlify (OTAA_APP_EUI cfg) = Some app_eui ->
  unhexlify (OTAA_APP_KEY cfg) = Some app_key ->
  0 < OTAA_JOIN_TIMEOUT cfg ->
  (forall i, w_poll_joined w i = false) ->
  w_joined_after_poll w = false ->
  (forall j, (j < n)%nat -> timer_after w j < OTAA_JOIN_TIMEOUT cfg) ->
  OTAA_JOIN_TIMEOUT cfg <= timer_after w n ->
  (forall k, (k < K)%nat -> w_guard w k = true) ->
  w_guard w K = false ->
  (K <= 255)%nat ->
  (n + 1 < fuel)%nat ->
  (K < fuel)%nat ->
  result_of (script cfg LoRa w fuel unbound) = Done tt
  /\ In "timeout, failed!" (printed (trace_of (script cfg LoRa w fuel unbound)))
  /\ map (map byte_val) (uplinks (trace_of (script cfg LoRa w fuel unbound)))
     = map (fun n => [Z.of_nat n]) (seq 1 K).
Proof.
  intros Hmode Heui Hkey Hpos Hnever Hafter Hbelow Hreach Htrue Hfalse HK
         Hfuel HfuelK.
  pose proof (otaa_join_timeout_run cfg w n fuel app_eui app_key unbound
                Heui Hkey Hpos Hnever Hafter Hbelow Hreach Hfuel) as Hjoin.
  destruct (main_loop_leaves_after cfg LoRa w K fuel (at_loop_entry unbound)
              eq_refl Htrue Hfalse HK HfuelK) as (HL & _ & Hup).
  pose proof (quiet_otaa_join cfg w fuel unbound) as [_ Hquiet].
  rewrite Hjoin in Hquiet. cbn [trace_of snd] in Hquiet.
  rewrite (script_otaa_run cfg LoRa w fuel unbound _ _ _ _ _ Hmode Hjoin
             (eq_trans (run_eta _) (f_equal (fun o => (o, _, _)) HL))).
  cbn [result_of trace_of fst snd]. split; [reflexivity|]. split.
  - rewrite !printed_app. apply in_or_app. right. apply in_or_app. left.
    cbn [printed]. rewrite printed_app. right. apply in_or_app. right.
    cbn [printed]. left. reflexivity.
  - rewrite !uplinks_app, Hquiet. cbn [uplinks preamble setup_trace app].
    rewrite app_nil_r. exact Hup.
Qed.

Lemma sends_after_failed_verdict_witness :
  w_joined_after_poll late_world = false
  /\ w_guard late_world 0 = true
  /\ map (map byte_val)
       (uplinks (trace_of (script reference_config pycom_LoRa late_world 40
                             unbound)))
     = [[1]].
Proof.
  split; [reflexivity|]. split; [reflexivity|].
  assert (Hbelow : forall j, (j < 29)%nat ->
            timer_after late_world j < OTAA_JOIN_TIMEOUT reference_config).
  { intros j Hj.
    assert (Hdelta : ticks_delta late_world j = 1000 * Z.of_nat (S j)).
    { unfold ticks_delta.
      cbn [late_world w_ticks_diff w_poll_ticks w_start_ticks]. lia. }
    rewrite timer_after_exact
      by (rewrite Hdelta; change (2 ^ 20) with 1048576; lia).
    rewrite Hdelta. cbn [reference_config OTAA_JOIN_TIMEOUT].
    apply Z.div_lt_upper_bound; lia. }
  assert (Htrue : forall k, (k < 1)%nat -> w_guard late_world k = true).
  { intros k Hk. destruct k as [|k]; [reflexivity|lia]. }
  exact (proj2 (proj2 (sends_after_failed_verdict reference_config pycom_LoRa
                         late_world 29 1 40 _ _ eq_refl eq_refl eq_refl
                         eq_refl (fun _ => eq_refl) eq_refl Hbelow
                         ltac:(vm_compute; discriminate) Htrue eq_refl
                         ltac:(lia) ltac:(lia) ltac:(lia)))).
Defined.
